(** * A shallow embedding of the layout engine of the [pdf] package

    The Go sources embedded here are [ast.go] (widget model, attribute
    parsing) and [layout.go] (sizing, text wrapping, positioning, pagination,
    page numbers).

    Conventions of the embedding:
    - [float64] values are rationals ([Q]), compared with [==]; rounding,
      infinities and NaN are outside the model;
    - Go strings are [string]s of bytes and every byte is one rune (ASCII text);
    - a [*Widget] tree is a value of the inductive type [Widget]; pointer
      fields that may be [nil] are [option]s, and a method that mutates its
      receiver returns the new widget;
    - a Go [panic] is [None] in the [option] monad;
    - the fields of [Widget] that no layout pass reads ([ID], [Hidden],
      [LineSpace], [StrokeColor], [Border], [CellBorder], [CellPadding],
      [Data], [Right], [Bottom]) are left out. *)

From Stdlib Require Import QArith Qminmax ZArith List String Ascii Bool Lia Lqa Arith.
From Stdlib Require Import DecimalString.
Import ListNotations.

Module Pdf.

Local Open Scope Q_scope.

(** ** Numbers *)

Definition Qltb (a b : Q) : bool := negb (Qle_bool b a).
Definition Qgtb (a b : Q) : bool := Qltb b a.
Definition Qgeb (a b : Q) : bool := Qle_bool b a.
Definition Qneqb (a b : Q) : bool := negb (Qeq_bool a b).

(** [float64(n)] for a length or an index. *)
Definition ofNat (n : nat) : Q := inject_Z (Z.of_nat n).

(** ** Data model ([ast.go]) *)

Record Box := mkBox { Bottom : Q; Left : Q; Right : Q; Top : Q }.

Record Color := mkColor { R : Z; G : Z; B : Z }.

Module Calc.
(** [CalculatedInfo]: the geometry and the style resolved by layout. *)
Record t := mk {
  OuterX : Q; OuterY : Q;
  InnerX : Q; InnerY : Q;
  X : Q; Y : Q;
  Width : Q; Height : Q;
  OuterWidth : Q; OuterHeight : Q;
  InnerWidth : Q; InnerHeight : Q;
  LineHeight : Q;
  FontFamily : string;
  FontSize : Q;
  Bold : bool;
  Color : option Color;
  Direction : string
}.

(** [&CalculatedInfo{}] *)
Definition zero : t :=
  mk 0 0 0 0 0 0 0 0 0 0 0 0 0 EmptyString 0 false None EmptyString.

Definition setOuterX (c : t) (v : Q) : t :=
  mk v (OuterY c) (InnerX c) (InnerY c) (X c) (Y c) (Width c) (Height c)
     (OuterWidth c) (OuterHeight c) (InnerWidth c) (InnerHeight c)
     (LineHeight c) (FontFamily c) (FontSize c) (Bold c) (Color c) (Direction c).
Definition setOuterY (c : t) (v : Q) : t :=
  mk (OuterX c) v (InnerX c) (InnerY c) (X c) (Y c) (Width c) (Height c)
     (OuterWidth c) (OuterHeight c) (InnerWidth c) (InnerHeight c)
     (LineHeight c) (FontFamily c) (FontSize c) (Bold c) (Color c) (Direction c).
Definition setInnerX (c : t) (v : Q) : t :=
  mk (OuterX c) (OuterY c) v (InnerY c) (X c) (Y c) (Width c) (Height c)
     (OuterWidth c) (OuterHeight c) (InnerWidth c) (InnerHeight c)
     (LineHeight c) (FontFamily c) (FontSize c) (Bold c) (Color c) (Direction c).
Definition setInnerY (c : t) (v : Q) : t :=
  mk (OuterX c) (OuterY c) (InnerX c) v (X c) (Y c) (Width c) (Height c)
     (OuterWidth c) (OuterHeight c) (InnerWidth c) (InnerHeight c)
     (LineHeight c) (FontFamily c) (FontSize c) (Bold c) (Color c) (Direction c).
Definition setX (c : t) (v : Q) : t :=
  mk (OuterX c) (OuterY c) (InnerX c) (InnerY c) v (Y c) (Width c) (Height c)
     (OuterWidth c) (OuterHeight c) (InnerWidth c) (InnerHeight c)
     (LineHeight c) (FontFamily c) (FontSize c) (Bold c) (Color c) (Direction c).
Definition setY (c : t) (v : Q) : t :=
  mk (OuterX c) (OuterY c) (InnerX c) (InnerY c) (X c) v (Width c) (Height c)
     (OuterWidth c) (OuterHeight c) (InnerWidth c) (InnerHeight c)
     (LineHeight c) (FontFamily c) (FontSize c) (Bold c) (Color c) (Direction c).
Definition setWidth (c : t) (v : Q) : t :=
  mk (OuterX c) (OuterY c) (InnerX c) (InnerY c) (X c) (Y c) v (Height c)
     (OuterWidth c) (OuterHeight c) (InnerWidth c) (InnerHeight c)
     (LineHeight c) (FontFamily c) (FontSize c) (Bold c) (Color c) (Direction c).
Definition setHeight (c : t) (v : Q) : t :=
  mk (OuterX c) (OuterY c) (InnerX c) (InnerY c) (X c) (Y c) (Width c) v
     (OuterWidth c) (OuterHeight c) (InnerWidth c) (InnerHeight c)
     (LineHeight c) (FontFamily c) (FontSize c) (Bold c) (Color c) (Direction c).
Definition setOuterWidth (c : t) (v : Q) : t :=
  mk (OuterX c) (OuterY c) (InnerX c) (InnerY c) (X c) (Y c) (Width c) (Height c)
     v (OuterHeight c) (InnerWidth c) (InnerHeight c)
     (LineHeight c) (FontFamily c) (FontSize c) (Bold c) (Color c) (Direction c).
Definition setOuterHeight (c : t) (v : Q) : t :=
  mk (OuterX c) (OuterY c) (InnerX c) (InnerY c) (X c) (Y c) (Width c) (Height c)
     (OuterWidth c) v (InnerWidth c) (InnerHeight c)
     (LineHeight c) (FontFamily c) (FontSize c) (Bold c) (Color c) (Direction c).
Definition setInnerWidth (c : t) (v : Q) : t :=
  mk (OuterX c) (OuterY c) (InnerX c) (InnerY c) (X c) (Y c) (Width c) (Height c)
     (OuterWidth c) (OuterHeight c) v (InnerHeight c)
     (LineHeight c) (FontFamily c) (FontSize c) (Bold c) (Color c) (Direction c).
Definition setInnerHeight (c : t) (v : Q) : t :=
  mk (OuterX c) (OuterY c) (InnerX c) (InnerY c) (X c) (Y c) (Width c) (Height c)
     (OuterWidth c) (OuterHeight c) (InnerWidth c) v
     (LineHeight c) (FontFamily c) (FontSize c) (Bold c) (Color c) (Direction c).
Definition setFontFamily (c : t) (v : string) : t :=
  mk (OuterX c) (OuterY c) (InnerX c) (InnerY c) (X c) (Y c) (Width c) (Height c)
     (OuterWidth c) (OuterHeight c) (InnerWidth c) (InnerHeight c)
     (LineHeight c) v (FontSize c) (Bold c) (Color c) (Direction c).
Definition setDirection (c : t) (v : string) : t :=
  mk (OuterX c) (OuterY c) (InnerX c) (InnerY c) (X c) (Y c) (Width c) (Height c)
     (OuterWidth c) (OuterHeight c) (InnerWidth c) (InnerHeight c)
     (LineHeight c) (FontFamily c) (FontSize c) (Bold c) (Color c) v.
End Calc.

(** [Widget]: the single node type.  [Rect] is flattened into it ([X], [Y],
    [Width], [Height] are the declared geometry); [Columns] keeps the declared
    table columns (layout reads only their number). *)
#[local] Unset Elimination Schemes.
Inductive Widget : Type := mkWidget {
  X : Q; Y : Q; Width : Q; Height : Q;
  Type_ : string;
  Padding : option Box;
  Margin : option Box;
  LineHeight : Q;
  FontFamily : string;
  FontSize : Q;
  Bold : bool;
  Color_ : option Color;
  BackgroundColor : option Color;
  Gap : Q;
  Direction : string;
  Children : list Widget;
  Value : string;
  ValueLines : option (list string);
  Wrap : bool;
  Align : string;
  Option_ : option Z;
  Calculated : Calc.t;
  PageNumber : Z;
  Columns : list Widget;
  CarryColumn : Z;
  CarryLast : option Q;
  CarryNext : option Q;
  CarryHeader : option Widget;
  CarryFooter : option Widget;
  AlternateColor : option Color;
  BreakMargin : Q;
  IsHeader : bool;
  Bytes : string;
  ImgWidth : Q; ImgHeight : Q; ImgMaxWidth : Q; ImgMaxHeight : Q
}.
#[local] Set Elimination Schemes.

(** Field updates ([w.F = v]). *)
Definition setWidth (w : Widget) (v : Q) : Widget :=
  mkWidget (X w) (Y w) v (Height w) (Type_ w) (Padding w) (Margin w) (LineHeight w)
    (FontFamily w) (FontSize w) (Bold w) (Color_ w) (BackgroundColor w) (Gap w)
    (Direction w) (Children w) (Value w) (ValueLines w) (Wrap w) (Align w) (Option_ w)
    (Calculated w) (PageNumber w) (Columns w) (CarryColumn w) (CarryLast w)
    (CarryNext w) (CarryHeader w) (CarryFooter w) (AlternateColor w) (BreakMargin w)
    (IsHeader w) (Bytes w) (ImgWidth w) (ImgHeight w) (ImgMaxWidth w) (ImgMaxHeight w).

Definition setHeight (w : Widget) (v : Q) : Widget :=
  mkWidget (X w) (Y w) (Width w) v (Type_ w) (Padding w) (Margin w) (LineHeight w)
    (FontFamily w) (FontSize w) (Bold w) (Color_ w) (BackgroundColor w) (Gap w)
    (Direction w) (Children w) (Value w) (ValueLines w) (Wrap w) (Align w) (Option_ w)
    (Calculated w) (PageNumber w) (Columns w) (CarryColumn w) (CarryLast w)
    (CarryNext w) (CarryHeader w) (CarryFooter w) (AlternateColor w) (BreakMargin w)
    (IsHeader w) (Bytes w) (ImgWidth w) (ImgHeight w) (ImgMaxWidth w) (ImgMaxHeight w).

Definition setChildren (w : Widget) (v : list Widget) : Widget :=
  mkWidget (X w) (Y w) (Width w) (Height w) (Type_ w) (Padding w) (Margin w)
    (LineHeight w) (FontFamily w) (FontSize w) (Bold w) (Color_ w) (BackgroundColor w)
    (Gap w) (Direction w) v (Value w) (ValueLines w) (Wrap w) (Align w) (Option_ w)
    (Calculated w) (PageNumber w) (Columns w) (CarryColumn w) (CarryLast w)
    (CarryNext w) (CarryHeader w) (CarryFooter w) (AlternateColor w) (BreakMargin w)
    (IsHeader w) (Bytes w) (ImgWidth w) (ImgHeight w) (ImgMaxWidth w) (ImgMaxHeight w).

Definition setValueLines (w : Widget) (v : option (list string)) : Widget :=
  mkWidget (X w) (Y w) (Width w) (Height w) (Type_ w) (Padding w) (Margin w)
    (LineHeight w) (FontFamily w) (FontSize w) (Bold w) (Color_ w) (BackgroundColor w)
    (Gap w) (Direction w) (Children w) (Value w) v (Wrap w) (Align w) (Option_ w)
    (Calculated w) (PageNumber w) (Columns w) (CarryColumn w) (CarryLast w)
    (CarryNext w) (CarryHeader w) (CarryFooter w) (AlternateColor w) (BreakMargin w)
    (IsHeader w) (Bytes w) (ImgWidth w) (ImgHeight w) (ImgMaxWidth w) (ImgMaxHeight w).

Definition setBackgroundColor (w : Widget) (v : option Color) : Widget :=
  mkWidget (X w) (Y w) (Width w) (Height w) (Type_ w) (Padding w) (Margin w)
    (LineHeight w) (FontFamily w) (FontSize w) (Bold w) (Color_ w) v (Gap w)
    (Direction w) (Children w) (Value w) (ValueLines w) (Wrap w) (Align w) (Option_ w)
    (Calculated w) (PageNumber w) (Columns w) (CarryColumn w) (CarryLast w)
    (CarryNext w) (CarryHeader w) (CarryFooter w) (AlternateColor w) (BreakMargin w)
    (IsHeader w) (Bytes w) (ImgWidth w) (ImgHeight w) (ImgMaxWidth w) (ImgMaxHeight w).

Definition setAlign (w : Widget) (v : string) : Widget :=
  mkWidget (X w) (Y w) (Width w) (Height w) (Type_ w) (Padding w) (Margin w)
    (LineHeight w) (FontFamily w) (FontSize w) (Bold w) (Color_ w) (BackgroundColor w)
    (Gap w) (Direction w) (Children w) (Value w) (ValueLines w) (Wrap w) v (Option_ w)
    (Calculated w) (PageNumber w) (Columns w) (CarryColumn w) (CarryLast w)
    (CarryNext w) (CarryHeader w) (CarryFooter w) (AlternateColor w) (BreakMargin w)
    (IsHeader w) (Bytes w) (ImgWidth w) (ImgHeight w) (ImgMaxWidth w) (ImgMaxHeight w).

Definition setCalculated (w : Widget) (v : Calc.t) : Widget :=
  mkWidget (X w) (Y w) (Width w) (Height w) (Type_ w) (Padding w) (Margin w)
    (LineHeight w) (FontFamily w) (FontSize w) (Bold w) (Color_ w) (BackgroundColor w)
    (Gap w) (Direction w) (Children w) (Value w) (ValueLines w) (Wrap w) (Align w)
    (Option_ w) v (PageNumber w) (Columns w) (CarryColumn w) (CarryLast w) (CarryNext w)
    (CarryHeader w) (CarryFooter w) (AlternateColor w) (BreakMargin w) (IsHeader w)
    (Bytes w) (ImgWidth w) (ImgHeight w) (ImgMaxWidth w) (ImgMaxHeight w).

Definition setPageNumber (w : Widget) (v : Z) : Widget :=
  mkWidget (X w) (Y w) (Width w) (Height w) (Type_ w) (Padding w) (Margin w)
    (LineHeight w) (FontFamily w) (FontSize w) (Bold w) (Color_ w) (BackgroundColor w)
    (Gap w) (Direction w) (Children w) (Value w) (ValueLines w) (Wrap w) (Align w)
    (Option_ w) (Calculated w) v (Columns w) (CarryColumn w) (CarryLast w) (CarryNext w)
    (CarryHeader w) (CarryFooter w) (AlternateColor w) (BreakMargin w) (IsHeader w)
    (Bytes w) (ImgWidth w) (ImgHeight w) (ImgMaxWidth w) (ImgMaxHeight w).

Definition setCarryLast (w : Widget) (v : option Q) : Widget :=
  mkWidget (X w) (Y w) (Width w) (Height w) (Type_ w) (Padding w) (Margin w)
    (LineHeight w) (FontFamily w) (FontSize w) (Bold w) (Color_ w) (BackgroundColor w)
    (Gap w) (Direction w) (Children w) (Value w) (ValueLines w) (Wrap w) (Align w)
    (Option_ w) (Calculated w) (PageNumber w) (Columns w) (CarryColumn w) v
    (CarryNext w) (CarryHeader w) (CarryFooter w) (AlternateColor w) (BreakMargin w)
    (IsHeader w) (Bytes w) (ImgWidth w) (ImgHeight w) (ImgMaxWidth w) (ImgMaxHeight w).

Definition setCarryNext (w : Widget) (v : option Q) : Widget :=
  mkWidget (X w) (Y w) (Width w) (Height w) (Type_ w) (Padding w) (Margin w)
    (LineHeight w) (FontFamily w) (FontSize w) (Bold w) (Color_ w) (BackgroundColor w)
    (Gap w) (Direction w) (Children w) (Value w) (ValueLines w) (Wrap w) (Align w)
    (Option_ w) (Calculated w) (PageNumber w) (Columns w) (CarryColumn w) (CarryLast w)
    v (CarryHeader w) (CarryFooter w) (AlternateColor w) (BreakMargin w) (IsHeader w)
    (Bytes w) (ImgWidth w) (ImgHeight w) (ImgMaxWidth w) (ImgMaxHeight w).

Definition setCarryHeader (w : Widget) (v : option Widget) : Widget :=
  mkWidget (X w) (Y w) (Width w) (Height w) (Type_ w) (Padding w) (Margin w)
    (LineHeight w) (FontFamily w) (FontSize w) (Bold w) (Color_ w) (BackgroundColor w)
    (Gap w) (Direction w) (Children w) (Value w) (ValueLines w) (Wrap w) (Align w)
    (Option_ w) (Calculated w) (PageNumber w) (Columns w) (CarryColumn w) (CarryLast w)
    (CarryNext w) v (CarryFooter w) (AlternateColor w) (BreakMargin w) (IsHeader w)
    (Bytes w) (ImgWidth w) (ImgHeight w) (ImgMaxWidth w) (ImgMaxHeight w).

Definition setCarryFooter (w : Widget) (v : option Widget) : Widget :=
  mkWidget (X w) (Y w) (Width w) (Height w) (Type_ w) (Padding w) (Margin w)
    (LineHeight w) (FontFamily w) (FontSize w) (Bold w) (Color_ w) (BackgroundColor w)
    (Gap w) (Direction w) (Children w) (Value w) (ValueLines w) (Wrap w) (Align w)
    (Option_ w) (Calculated w) (PageNumber w) (Columns w) (CarryColumn w) (CarryLast w)
    (CarryNext w) (CarryHeader w) v (AlternateColor w) (BreakMargin w) (IsHeader w)
    (Bytes w) (ImgWidth w) (ImgHeight w) (ImgMaxWidth w) (ImgMaxHeight w).

Definition setImgWidth (w : Widget) (v : Q) : Widget :=
  mkWidget (X w) (Y w) (Width w) (Height w) (Type_ w) (Padding w) (Margin w)
    (LineHeight w) (FontFamily w) (FontSize w) (Bold w) (Color_ w) (BackgroundColor w)
    (Gap w) (Direction w) (Children w) (Value w) (ValueLines w) (Wrap w) (Align w)
    (Option_ w) (Calculated w) (PageNumber w) (Columns w) (CarryColumn w) (CarryLast w)
    (CarryNext w) (CarryHeader w) (CarryFooter w) (AlternateColor w) (BreakMargin w)
    (IsHeader w) (Bytes w) v (ImgHeight w) (ImgMaxWidth w) (ImgMaxHeight w).

Definition setImgHeight (w : Widget) (v : Q) : Widget :=
  mkWidget (X w) (Y w) (Width w) (Height w) (Type_ w) (Padding w) (Margin w)
    (LineHeight w) (FontFamily w) (FontSize w) (Bold w) (Color_ w) (BackgroundColor w)
    (Gap w) (Direction w) (Children w) (Value w) (ValueLines w) (Wrap w) (Align w)
    (Option_ w) (Calculated w) (PageNumber w) (Columns w) (CarryColumn w) (CarryLast w)
    (CarryNext w) (CarryHeader w) (CarryFooter w) (AlternateColor w) (BreakMargin w)
    (IsHeader w) (Bytes w) (ImgWidth w) v (ImgMaxWidth w) (ImgMaxHeight w).

Definition setX (w : Widget) (v : Q) : Widget :=
  mkWidget v (Y w) (Width w) (Height w) (Type_ w) (Padding w) (Margin w) (LineHeight w)
    (FontFamily w) (FontSize w) (Bold w) (Color_ w) (BackgroundColor w) (Gap w)
    (Direction w) (Children w) (Value w) (ValueLines w) (Wrap w) (Align w) (Option_ w)
    (Calculated w) (PageNumber w) (Columns w) (CarryColumn w) (CarryLast w)
    (CarryNext w) (CarryHeader w) (CarryFooter w) (AlternateColor w) (BreakMargin w)
    (IsHeader w) (Bytes w) (ImgWidth w) (ImgHeight w) (ImgMaxWidth w) (ImgMaxHeight w).

Definition setY (w : Widget) (v : Q) : Widget :=
  mkWidget (X w) v (Width w) (Height w) (Type_ w) (Padding w) (Margin w) (LineHeight w)
    (FontFamily w) (FontSize w) (Bold w) (Color_ w) (BackgroundColor w) (Gap w)
    (Direction w) (Children w) (Value w) (ValueLines w) (Wrap w) (Align w) (Option_ w)
    (Calculated w) (PageNumber w) (Columns w) (CarryColumn w) (CarryLast w)
    (CarryNext w) (CarryHeader w) (CarryFooter w) (AlternateColor w) (BreakMargin w)
    (IsHeader w) (Bytes w) (ImgWidth w) (ImgHeight w) (ImgMaxWidth w) (ImgMaxHeight w).

Definition setType_ (w : Widget) (v : string) : Widget :=
  mkWidget (X w) (Y w) (Width w) (Height w) v (Padding w) (Margin w) (LineHeight w)
    (FontFamily w) (FontSize w) (Bold w) (Color_ w) (BackgroundColor w) (Gap w)
    (Direction w) (Children w) (Value w) (ValueLines w) (Wrap w) (Align w) (Option_ w)
    (Calculated w) (PageNumber w) (Columns w) (CarryColumn w) (CarryLast w)
    (CarryNext w) (CarryHeader w) (CarryFooter w) (AlternateColor w) (BreakMargin w)
    (IsHeader w) (Bytes w) (ImgWidth w) (ImgHeight w) (ImgMaxWidth w) (ImgMaxHeight w).



Definition setLineHeight (w : Widget) (v : Q) : Widget :=
  mkWidget (X w) (Y w) (Width w) (Height w) (Type_ w) (Padding w) (Margin w) v
    (FontFamily w) (FontSize w) (Bold w) (Color_ w) (BackgroundColor w) (Gap w)
    (Direction w) (Children w) (Value w) (ValueLines w) (Wrap w) (Align w) (Option_ w)
    (Calculated w) (PageNumber w) (Columns w) (CarryColumn w) (CarryLast w)
    (CarryNext w) (CarryHeader w) (CarryFooter w) (AlternateColor w) (BreakMargin w)
    (IsHeader w) (Bytes w) (ImgWidth w) (ImgHeight w) (ImgMaxWidth w) (ImgMaxHeight w).

Definition setFontFamily (w : Widget) (v : string) : Widget :=
  mkWidget (X w) (Y w) (Width w) (Height w) (Type_ w) (Padding w) (Margin w)
    (LineHeight w) v (FontSize w) (Bold w) (Color_ w) (BackgroundColor w) (Gap w)
    (Direction w) (Children w) (Value w) (ValueLines w) (Wrap w) (Align w) (Option_ w)
    (Calculated w) (PageNumber w) (Columns w) (CarryColumn w) (CarryLast w)
    (CarryNext w) (CarryHeader w) (CarryFooter w) (AlternateColor w) (BreakMargin w)
    (IsHeader w) (Bytes w) (ImgWidth w) (ImgHeight w) (ImgMaxWidth w) (ImgMaxHeight w).

Definition setFontSize (w : Widget) (v : Q) : Widget :=
  mkWidget (X w) (Y w) (Width w) (Height w) (Type_ w) (Padding w) (Margin w)
    (LineHeight w) (FontFamily w) v (Bold w) (Color_ w) (BackgroundColor w) (Gap w)
    (Direction w) (Children w) (Value w) (ValueLines w) (Wrap w) (Align w) (Option_ w)
    (Calculated w) (PageNumber w) (Columns w) (CarryColumn w) (CarryLast w)
    (CarryNext w) (CarryHeader w) (CarryFooter w) (AlternateColor w) (BreakMargin w)
    (IsHeader w) (Bytes w) (ImgWidth w) (ImgHeight w) (ImgMaxWidth w) (ImgMaxHeight w).

Definition setBold (w : Widget) (v : bool) : Widget :=
  mkWidget (X w) (Y w) (Width w) (Height w) (Type_ w) (Padding w) (Margin w)
    (LineHeight w) (FontFamily w) (FontSize w) v (Color_ w) (BackgroundColor w) (Gap w)
    (Direction w) (Children w) (Value w) (ValueLines w) (Wrap w) (Align w) (Option_ w)
    (Calculated w) (PageNumber w) (Columns w) (CarryColumn w) (CarryLast w)
    (CarryNext w) (CarryHeader w) (CarryFooter w) (AlternateColor w) (BreakMargin w)
    (IsHeader w) (Bytes w) (ImgWidth w) (ImgHeight w) (ImgMaxWidth w) (ImgMaxHeight w).

Definition setGap (w : Widget) (v : Q) : Widget :=
  mkWidget (X w) (Y w) (Width w) (Height w) (Type_ w) (Padding w) (Margin w)
    (LineHeight w) (FontFamily w) (FontSize w) (Bold w) (Color_ w) (BackgroundColor w) v
    (Direction w) (Children w) (Value w) (ValueLines w) (Wrap w) (Align w) (Option_ w)
    (Calculated w) (PageNumber w) (Columns w) (CarryColumn w) (CarryLast w)
    (CarryNext w) (CarryHeader w) (CarryFooter w) (AlternateColor w) (BreakMargin w)
    (IsHeader w) (Bytes w) (ImgWidth w) (ImgHeight w) (ImgMaxWidth w) (ImgMaxHeight w).

Definition setDirection (w : Widget) (v : string) : Widget :=
  mkWidget (X w) (Y w) (Width w) (Height w) (Type_ w) (Padding w) (Margin w)
    (LineHeight w) (FontFamily w) (FontSize w) (Bold w) (Color_ w) (BackgroundColor w)
    (Gap w) v (Children w) (Value w) (ValueLines w) (Wrap w) (Align w) (Option_ w)
    (Calculated w) (PageNumber w) (Columns w) (CarryColumn w) (CarryLast w)
    (CarryNext w) (CarryHeader w) (CarryFooter w) (AlternateColor w) (BreakMargin w)
    (IsHeader w) (Bytes w) (ImgWidth w) (ImgHeight w) (ImgMaxWidth w) (ImgMaxHeight w).

Definition setValue (w : Widget) (v : string) : Widget :=
  mkWidget (X w) (Y w) (Width w) (Height w) (Type_ w) (Padding w) (Margin w)
    (LineHeight w) (FontFamily w) (FontSize w) (Bold w) (Color_ w) (BackgroundColor w)
    (Gap w) (Direction w) (Children w) v (ValueLines w) (Wrap w) (Align w) (Option_ w)
    (Calculated w) (PageNumber w) (Columns w) (CarryColumn w) (CarryLast w)
    (CarryNext w) (CarryHeader w) (CarryFooter w) (AlternateColor w) (BreakMargin w)
    (IsHeader w) (Bytes w) (ImgWidth w) (ImgHeight w) (ImgMaxWidth w) (ImgMaxHeight w).

Definition setWrap (w : Widget) (v : bool) : Widget :=
  mkWidget (X w) (Y w) (Width w) (Height w) (Type_ w) (Padding w) (Margin w)
    (LineHeight w) (FontFamily w) (FontSize w) (Bold w) (Color_ w) (BackgroundColor w)
    (Gap w) (Direction w) (Children w) (Value w) (ValueLines w) v (Align w) (Option_ w)
    (Calculated w) (PageNumber w) (Columns w) (CarryColumn w) (CarryLast w)
    (CarryNext w) (CarryHeader w) (CarryFooter w) (AlternateColor w) (BreakMargin w)
    (IsHeader w) (Bytes w) (ImgWidth w) (ImgHeight w) (ImgMaxWidth w) (ImgMaxHeight w).

Definition setColumns (w : Widget) (v : list Widget) : Widget :=
  mkWidget (X w) (Y w) (Width w) (Height w) (Type_ w) (Padding w) (Margin w)
    (LineHeight w) (FontFamily w) (FontSize w) (Bold w) (Color_ w) (BackgroundColor w)
    (Gap w) (Direction w) (Children w) (Value w) (ValueLines w) (Wrap w) (Align w)
    (Option_ w) (Calculated w) (PageNumber w) v (CarryColumn w) (CarryLast w)
    (CarryNext w) (CarryHeader w) (CarryFooter w) (AlternateColor w) (BreakMargin w)
    (IsHeader w) (Bytes w) (ImgWidth w) (ImgHeight w) (ImgMaxWidth w) (ImgMaxHeight w).

Definition setCarryColumn (w : Widget) (v : Z) : Widget :=
  mkWidget (X w) (Y w) (Width w) (Height w) (Type_ w) (Padding w) (Margin w)
    (LineHeight w) (FontFamily w) (FontSize w) (Bold w) (Color_ w) (BackgroundColor w)
    (Gap w) (Direction w) (Children w) (Value w) (ValueLines w) (Wrap w) (Align w)
    (Option_ w) (Calculated w) (PageNumber w) (Columns w) v (CarryLast w) (CarryNext w)
    (CarryHeader w) (CarryFooter w) (AlternateColor w) (BreakMargin w) (IsHeader w)
    (Bytes w) (ImgWidth w) (ImgHeight w) (ImgMaxWidth w) (ImgMaxHeight w).

Definition setAlternateColorField (w : Widget) (v : option Color) : Widget :=
  mkWidget (X w) (Y w) (Width w) (Height w) (Type_ w) (Padding w) (Margin w)
    (LineHeight w) (FontFamily w) (FontSize w) (Bold w) (Color_ w) (BackgroundColor w)
    (Gap w) (Direction w) (Children w) (Value w) (ValueLines w) (Wrap w) (Align w)
    (Option_ w) (Calculated w) (PageNumber w) (Columns w) (CarryColumn w) (CarryLast w)
    (CarryNext w) (CarryHeader w) (CarryFooter w) v (BreakMargin w) (IsHeader w)
    (Bytes w) (ImgWidth w) (ImgHeight w) (ImgMaxWidth w) (ImgMaxHeight w).

Definition setBreakMargin (w : Widget) (v : Q) : Widget :=
  mkWidget (X w) (Y w) (Width w) (Height w) (Type_ w) (Padding w) (Margin w)
    (LineHeight w) (FontFamily w) (FontSize w) (Bold w) (Color_ w) (BackgroundColor w)
    (Gap w) (Direction w) (Children w) (Value w) (ValueLines w) (Wrap w) (Align w)
    (Option_ w) (Calculated w) (PageNumber w) (Columns w) (CarryColumn w) (CarryLast w)
    (CarryNext w) (CarryHeader w) (CarryFooter w) (AlternateColor w) v (IsHeader w)
    (Bytes w) (ImgWidth w) (ImgHeight w) (ImgMaxWidth w) (ImgMaxHeight w).

Definition setIsHeader (w : Widget) (v : bool) : Widget :=
  mkWidget (X w) (Y w) (Width w) (Height w) (Type_ w) (Padding w) (Margin w)
    (LineHeight w) (FontFamily w) (FontSize w) (Bold w) (Color_ w) (BackgroundColor w)
    (Gap w) (Direction w) (Children w) (Value w) (ValueLines w) (Wrap w) (Align w)
    (Option_ w) (Calculated w) (PageNumber w) (Columns w) (CarryColumn w) (CarryLast w)
    (CarryNext w) (CarryHeader w) (CarryFooter w) (AlternateColor w) (BreakMargin w) v
    (Bytes w) (ImgWidth w) (ImgHeight w) (ImgMaxWidth w) (ImgMaxHeight w).

Definition updCalc (w : Widget) (f : Calc.t -> Calc.t) : Widget :=
  setCalculated w (f (Calculated w)).

(** ** Go's [strings] package on byte strings *)

Local Open Scope string_scope.

(** ASCII white space, as [strings.TrimSpace] and [strings.Fields] see it. *)
Definition isSpace (c : ascii) : bool :=
  let n := nat_of_ascii c in
  ((9 <=? n)%nat && (n <=? 13)%nat) || (n =? 32)%nat.

Definition strEmpty (s : string) : bool :=
  match s with EmptyString => true | String _ _ => false end.

(** [strings.Split(s, sep)] for a one-byte separator. *)
Fixpoint splitByte (sep : ascii) (s : string) : list string :=
  match s with
  | EmptyString => [EmptyString]
  | String c r =>
      if Ascii.eqb c sep then EmptyString :: splitByte sep r
      else match splitByte sep r with
           | h :: t => String c h :: t
           | [] => [String c EmptyString]
           end
  end.

Fixpoint trimLeft (s : string) : string :=
  match s with
  | EmptyString => EmptyString
  | String c r => if isSpace c then trimLeft r else s
  end.

Fixpoint trimRight (s : string) : string :=
  match s with
  | EmptyString => EmptyString
  | String c r =>
      let r' := trimRight r in
      if isSpace c && strEmpty r' then EmptyString else String c r'
  end.

(** [strings.TrimSpace] *)
Definition TrimSpace (s : string) : string := trimRight (trimLeft s).

Fixpoint fieldsFrom (cur : string) (s : string) : list string :=
  match s with
  | EmptyString => if strEmpty cur then [] else [cur]
  | String c r =>
      if isSpace c
      then (if strEmpty cur then fieldsFrom EmptyString r
            else cur :: fieldsFrom EmptyString r)
      else fieldsFrom (cur ++ String c EmptyString) r
  end.

(** [strings.Fields] *)
Definition Fields (s : string) : list string := fieldsFrom EmptyString s.

(** [strings.Join] *)
Fixpoint Join (l : list string) (sep : string) : string :=
  match l with
  | [] => EmptyString
  | [x] => x
  | x :: t => x ++ sep ++ Join t sep
  end.

(** [strings.HasPrefix] *)
Definition HasPrefix (s p : string) : bool := String.prefix p s.

(** [strings.HasSuffix] *)
Definition HasSuffix (s suf : string) : bool :=
  let n := String.length s in
  let k := String.length suf in
  (k <=? n)%nat && String.eqb (substring (n - k) k s) suf.

Fixpoint dropBytes (n : nat) (s : string) : string :=
  match n, s with
  | O, _ => s
  | S n', String _ r => dropBytes n' r
  | S _, EmptyString => EmptyString
  end.

(** [strings.ReplaceAll(s, old, new)] for a non-empty [old]: the
    non-overlapping occurrences, leftmost first.  [skip] counts the bytes of
    an occurrence still to be dropped. *)
Fixpoint replaceFrom (skip : nat) (s old new : string) : string :=
  match s with
  | EmptyString => EmptyString
  | String c r =>
      match skip with
      | S k => replaceFrom k r old new
      | O =>
          if String.prefix old s
          then new ++ replaceFrom (String.length old - 1) r old new
          else String c (replaceFrom O r old new)
      end
  end.

Definition ReplaceAll (s old new : string) : string := replaceFrom O s old new.

(** The empty slice stands for both [nil] and [[]string{}] where the source
    only takes its length; [goSlice] is the [nil]-aware reading of a slice
    built by [append] from [nil]. *)
Definition goSlice {A : Type} (l : list A) : option (list A) :=
  match l with [] => None | _ => Some l end.

(** [append(s, x)] *)
Definition append {A : Type} (s : list A) (x : A) : list A := (s ++ [x])%list.

Definition lenOpt {A : Type} (o : option (list A)) : nat :=
  match o with None => O | Some l => List.length l end.

(** ** Attribute parsing ([ast.go]) *)

(** *** [strconv.ParseInt(v, 16, 32)]

    The Go library function behind [parseHex], written out for base 16 and
    bit size 32: an optional sign, then hexadecimal digits; the second
    component is [true] when Go returns an error (syntax or range). *)

Definition hexDigit (c : ascii) : option Z :=
  let n := Z.of_nat (nat_of_ascii c) in
  if ((48 <=? n) && (n <=? 57))%Z then Some (n - 48)%Z
  else if ((97 <=? n) && (n <=? 122))%Z
       then (if (n - 97 + 10 <? 16)%Z then Some (n - 97 + 10)%Z else None)
  else if ((65 <=? n) && (n <=? 90))%Z
       then (if (n - 65 + 10 <? 16)%Z then Some (n - 65 + 10)%Z else None)
  else None.

Definition maxUint64 : Z := (2 ^ 64 - 1)%Z.
Definition maxVal32 : Z := (2 ^ 32 - 1)%Z.

(** The digit loop of [strconv.ParseUint(s, 16, 32)]. *)
Fixpoint parseUintLoop (s : string) (n : Z) : Z * bool :=
  match s with
  | EmptyString => (n, false)
  | String c r =>
      match hexDigit c with
      | None => (0%Z, true)
      | Some d =>
          if (maxUint64 / 16 + 1 <=? n)%Z then (maxVal32, true)
          else
            let n1 := (n * 16 + d)%Z in
            if (maxVal32 <? n1)%Z then (maxVal32, true)
            else parseUintLoop r n1
      end
  end.

Definition ParseUint16_32 (s : string) : Z * bool :=
  match s with
  | EmptyString => (0%Z, true)
  | _ => parseUintLoop s 0%Z
  end.

Definition isRangeError (r : Z * bool) : bool :=
  snd r && (fst r =? maxVal32)%Z.

Definition ParseInt16_32 (s : string) : Z * bool :=
  match s with
  | EmptyString => (0%Z, true)
  | String c r =>
      let neg := Ascii.eqb c "-"%char in
      let s' := if Ascii.eqb c "+"%char || neg then r else s in
      let ur := ParseUint16_32 s' in
      if snd ur && negb (isRangeError ur) then (0%Z, true)
      else
        let un := fst ur in
        let cutoff := (2 ^ 31)%Z in
        if negb neg && (cutoff <=? un)%Z then ((cutoff - 1)%Z, true)
        else if neg && (cutoff <? un)%Z then ((- cutoff)%Z, true)
        else ((if neg then - un else un)%Z, false)
  end.

(** [parseHex]: the error of [ParseInt] is dropped. *)
Definition parseHex (v : string) : Z := fst (ParseInt16_32 v).

Definition byteAt (v : string) (i : nat) : string :=
  match String.get i v with
  | Some c => String c EmptyString
  | None => EmptyString
  end.

Definition parseColor (v : string) : option Color :=
  if negb (HasPrefix v "#") then None
  else
    let v := dropBytes 1 v in
    match String.length v with
    | 3%nat =>
        let r := parseHex (byteAt v 0 ++ byteAt v 0) in
        let g := parseHex (byteAt v 1 ++ byteAt v 1) in
        let b := parseHex (byteAt v 2 ++ byteAt v 2) in
        Some (mkColor r g b)
    | 6%nat =>
        let r := parseHex (substring 0 2 v) in
        let g := parseHex (substring 2 2 v) in
        let b := parseHex (substring 4 2 v) in
        Some (mkColor r g b)
    | _ => None
    end.

Definition splitClean (s : string) (sep : ascii) : list string :=
  List.filter (fun p => negb (strEmpty p))
              (List.map TrimSpace (splitByte sep s)).

(** *** Elements of the XML tree ([etree]) *)

Unset Elimination Schemes.
Inductive Token : Type :=
  | CharData (Data : string)
  | ElementTok (tag : string) (attr : list (string * string)) (child : list Token)
  | OtherTok.
Set Elimination Schemes.

Record Element := mkElement {
  Tag : string;
  Attr : list (string * string);
  Child : list Token
}.

(** [el.SelectAttrValue(name, dflt)] *)
Fixpoint selectAttr (attrs : list (string * string)) (name dflt : string) : string :=
  match attrs with
  | [] => dflt
  | (k, v) :: t => if String.eqb k name then v else selectAttr t name dflt
  end.

Definition getAttrValue (el : Element) (name defaultValue : string) : string :=
  selectAttr (Attr el) name defaultValue.

Definition parseBool (v : string) : bool :=
  String.eqb v "true" || String.eqb v "1".

Definition parseBoolAttr (el : Element) (name : string) (defaultValue : bool) : bool :=
  let v := getAttrValue el name "" in
  if strEmpty v then defaultValue else parseBool v.

Section Strconv.
(** [strconv.ParseFloat(v, 64)] of the Go library: the value and whether an
    error is returned with it. *)
Variable ParseFloat : string -> Q * bool.

Definition parseFloat (v : string) : Q := fst (ParseFloat v).

Definition parseFloatAttr (el : Element) (name : string) (defaultValue : Q) : Q :=
  let v := getAttrValue el name "" in
  if strEmpty v then defaultValue else parseFloat v.
End Strconv.

(** *** Pages and documents *)

Record Page := mkPage {
  PageWidget : Widget;
  Header : option Widget;
  Footer : option Widget;
  ResetPageNumbers : bool
}.

(** [doc.Children] aliases the widgets of [doc.Pages]; the model keeps the
    pages only and lets the passes that walk [doc.Children] walk them. *)
Record Document := mkDocument {
  DocWidget : Widget;
  Pages : list Page
}.

Definition setPageWidget (p : Page) (w : Widget) : Page :=
  mkPage w (Header p) (Footer p) (ResetPageNumbers p).
Definition setHeader (p : Page) (h : option Widget) : Page :=
  mkPage (PageWidget p) h (Footer p) (ResetPageNumbers p).
Definition setFooter (p : Page) (f : option Widget) : Page :=
  mkPage (PageWidget p) (Header p) f (ResetPageNumbers p).

(** The zero value [Widget{}]. *)
Definition emptyWidget : Widget :=
  mkWidget 0 0 0 0 "" None None 0 "" 0 false None None 0 "" [] "" None false ""
           None Calc.zero 0%Z [] 0%Z None None None None None 0 false "" 0 0 0 0.

(** [&Widget{Type: "div", ValueLines: lines, Option: page.Option}] *)
Definition textWidget (lines : list string) (opt : option Z) : Widget :=
  mkWidget 0 0 0 0 "div" None None 0 "" 0 false None None 0 "" [] "" (Some lines)
           false "" opt Calc.zero 0%Z [] 0%Z None None None None None 0 false ""
           0 0 0 0.

Section ParseToken.
(** [parseElement] (the element parser, with its effect on the page's
    header and footer slots) is taken as given: an error, or the widget
    (possibly none) and the page. *)
Variable parseElement : Element -> Page -> string + (option Widget * Page).

Definition parseToken (tk : Token) (page : Page) (textAsWidget : bool)
  : string + (option Widget * Page) :=
  match tk with
  | CharData text =>
      if strEmpty (TrimSpace text) then inr (None, page)
      else if textAsWidget then
        let lines := splitClean text "010"%char in
        inr (Some (textWidget lines (Option_ (PageWidget page))), page)
      else inr (None, page)
  | ElementTok tag attr child => parseElement (mkElement tag attr child) page
  | OtherTok => inr (None, page)
  end.
End ParseToken.

(** ** The layout engine ([layout.go]) *)

Local Open Scope Q_scope.

Record PdfLibDoc := mkPdfLibDoc { DocFontSize : Q }.

(** [PdfLibDoc.MeasureTextWidth] ([ast.go]) *)
Definition MeasureTextWidth (p : PdfLibDoc) (text : string) : Q :=
  if strEmpty text then 0
  else ofNat (String.length text) * (45 # 100) * DocFontSize p.

(** [Layouter]: the measuring document and the number formatter ([None] is
    the [nil] interface; [ParseNumber] returns [None] for an error).
    [imageDecode] stands for [image.Decode] followed by [Bounds]: the pixel
    width and height, or [None] for a decoding error. *)
Record Layouter := mkLayouter {
  pdLibDoc : PdfLibDoc;
  formatter : option (string -> option Q);
  imageDecode : string -> option (Z * Z)
}.

Definition isZero (q : Q) : bool := Qeq_bool q 0.

(** *** The six conversions between outer, border and inner sizes *)

Definition addjustCalculatedWidth (w : Widget) : Widget :=
  let c := Calculated w in
  let c := if isZero (Calc.Width c) then Calc.setWidth c (Width w) else c in
  let c := Calc.setInnerWidth c (Calc.Width c) in
  let c := match Padding w with
           | Some p =>
               let c := Calc.setInnerWidth c (Calc.InnerWidth c - (Left p + Right p)) in
               if Qltb (Calc.InnerWidth c) 0 then Calc.setInnerWidth c 0 else c
           | None => c
           end in
  let c := Calc.setOuterWidth c (Calc.Width c) in
  let c := match Margin w with
           | Some m => Calc.setOuterWidth c (Calc.OuterWidth c + (Left m + Right m))
           | None => c
           end in
  setCalculated w c.

Definition recalculateFromInnerHeight (w : Widget) : Widget :=
  let c := Calculated w in
  let c := Calc.setHeight c (Calc.InnerHeight c) in
  let c := match Padding w with
           | Some p => Calc.setHeight c (Calc.Height c + (Top p + Bottom p))
           | None => c
           end in
  let c := Calc.setOuterHeight c (Calc.Height c) in
  let c := match Margin w with
           | Some m => Calc.setOuterHeight c (Calc.OuterHeight c + (Top m + Bottom m))
           | None => c
           end in
  setCalculated w c.

Definition addjustCalculatedHeight (w : Widget) : Widget :=
  let c := Calculated w in
  let c := if isZero (Calc.Height c) then Calc.setHeight c (Height w) else c in
  let c := Calc.setInnerHeight c (Calc.Height c) in
  let c := match Padding w with
           | Some p =>
               let c := Calc.setInnerHeight c (Calc.InnerHeight c - (Top p + Bottom p)) in
               if Qltb (Calc.InnerHeight c) 0 then Calc.setInnerHeight c 0 else c
           | None => c
           end in
  let c := Calc.setOuterHeight c (Calc.Height c) in
  let c := match Margin w with
           | Some m => Calc.setOuterHeight c (Calc.OuterHeight c + (Top m + Bottom m))
           | None => c
           end in
  setCalculated w c.

Definition recalculateFromOuterHeight (w : Widget) : Widget :=
  let c := Calculated w in
  let c := Calc.setHeight c (Calc.OuterHeight c) in
  let c := match Margin w with
           | Some m => Calc.setHeight c (Calc.Height c - (Top m + Bottom m))
           | None => c
           end in
  let c := Calc.setInnerHeight c (Calc.Height c) in
  let c := match Padding w with
           | Some p =>
               let c := Calc.setInnerHeight c (Calc.InnerHeight c - (Top p + Bottom p)) in
               if Qltb (Calc.InnerHeight c) 0 then Calc.setInnerHeight c 0 else c
           | None => c
           end in
  setCalculated w c.

Definition recalculateFromOuterWidth (w : Widget) : Widget :=
  let c := Calculated w in
  let c := Calc.setWidth c (Calc.OuterWidth c) in
  let c := match Margin w with
           | Some m => Calc.setWidth c (Calc.Width c - (Left m + Right m))
           | None => c
           end in
  let c := Calc.setInnerWidth c (Calc.Width c) in
  let c := match Padding w with
           | Some p =>
               let c := Calc.setInnerWidth c (Calc.InnerWidth c - (Left p + Right p)) in
               if Qltb (Calc.InnerWidth c) 0 then Calc.setInnerWidth c 0 else c
           | None => c
           end in
  setCalculated w c.

Definition addjustCalculatedSize (w : Widget) : Widget :=
  addjustCalculatedHeight (addjustCalculatedWidth w).

(** *** Positions derived from the outer or the inner corner *)

Definition adjustCalculatedXFromInner (w : Widget) : Widget :=
  let c := Calculated w in
  let c := Calc.setOuterX c (Calc.InnerX c) in
  let c := match Margin w with
           | Some m => Calc.setInnerX c (Calc.InnerX c + Left m)
           | None => c
           end in
  let c := Calc.setX c (Calc.InnerX c) in
  let c := match Padding w with
           | Some p => Calc.setX c (Calc.X c + Left p)
           | None => c
           end in
  setCalculated w c.

Definition adjustCalculatedYFromInner (w : Widget) : Widget :=
  let c := Calculated w in
  let c := Calc.setOuterY c (Calc.InnerY c) in
  let c := match Margin w with
           | Some m => Calc.setInnerY c (Calc.InnerY c + Top m)
           | None => c
           end in
  let c := Calc.setY c (Calc.InnerY c) in
  let c := match Padding w with
           | Some p => Calc.setY c (Calc.Y c + Top p)
           | None => c
           end in
  setCalculated w c.

Definition adjustCalculatedPositionFromInner (w : Widget) : Widget :=
  adjustCalculatedYFromInner (adjustCalculatedXFromInner w).

Definition adjustCalculatedX (w : Widget) : Widget :=
  let c := Calculated w in
  let c := Calc.setInnerX c (Calc.OuterX c) in
  let c := match Margin w with
           | Some m => Calc.setInnerX c (Calc.InnerX c + Left m)
           | None => c
           end in
  let c := Calc.setX c (Calc.InnerX c) in
  let c := match Padding w with
           | Some p => Calc.setX c (Calc.X c + Left p)
           | None => c
           end in
  setCalculated w c.

Definition adjustCalculatedY (w : Widget) : Widget :=
  let c := Calculated w in
  let c := Calc.setInnerY c (Calc.OuterY c) in
  let c := match Margin w with
           | Some m => Calc.setInnerY c (Calc.InnerY c + Top m)
           | None => c
           end in
  let c := Calc.setY c (Calc.InnerY c) in
  let c := match Padding w with
           | Some p => Calc.setY c (Calc.Y c + Top p)
           | None => c
           end in
  setCalculated w c.

Definition adjustCalculatedPosition (w : Widget) : Widget :=
  adjustCalculatedY (adjustCalculatedX w).

(** *** Style inheritance *)

Definition initCalculatedInfoOwn (w : Widget) (parent : option Widget) : Widget :=
  let c :=
    match parent with
    | Some p =>
        let pc := Calculated p in
        Calc.mk 0 0 0 0 0 0 0 0 0 0 0 0
          (if negb (isZero (LineHeight w)) then LineHeight w else Calc.LineHeight pc)
          (if negb (strEmpty (FontFamily w)) then FontFamily w else Calc.FontFamily pc)
          (if negb (isZero (FontSize w)) then FontSize w else Calc.FontSize pc)
          (Bold w || Calc.Bold pc)
          (match Color_ w with Some k => Some k | None => Calc.Color pc end)
          ""
    | None =>
        Calc.mk 0 0 0 0 0 0 0 0 0 0 0 0
          (LineHeight w) (FontFamily w) (FontSize w) (Bold w) (Color_ w) ""
    end in
  let w := setCalculated w c in
  let w := if negb (isZero (Width w))
           then addjustCalculatedWidth (updCalc w (fun c => Calc.setWidth c (Width w)))
           else w in
  let w := if negb (isZero (Height w))
           then addjustCalculatedHeight (updCalc w (fun c => Calc.setHeight c (Height w)))
           else w in
  let w := updCalc w (fun c => Calc.setDirection c (Direction w)) in
  let w := if strEmpty (Calc.Direction (Calculated w))
           then updCalc w (fun c => Calc.setDirection c "column")
           else w in
  if Calc.Bold (Calculated w) && negb (HasSuffix (Calc.FontFamily (Calculated w)) "Bold")
  then updCalc w (fun c => Calc.setFontFamily c (Calc.FontFamily c ++ "Bold")%string)
  else w.

Fixpoint initCalculatedInfo (w : Widget) (parent : option Widget) : Widget :=
  let w1 := initCalculatedInfoOwn w parent in
  setChildren w1 (List.map (fun child => initCalculatedInfo child (Some w1)) (Children w)).

(** *** Intrinsic sizes *)

Definition initImageSizeWidget (l : Layouter) (w : Widget) : Widget :=
  let w := if isZero (ImgWidth w) && negb (isZero (Width w))
           then setImgWidth w (Width w) else w in
  let w := if isZero (ImgHeight w) && negb (isZero (Calc.Height (Calculated w)))
           then setImgHeight w (Calc.Height (Calculated w)) else w in
  let w :=
    if isZero (ImgWidth w) && isZero (ImgHeight w) then
      if (0 <? String.length (Bytes w))%nat then
        match imageDecode l (Bytes w) with
        | Some (dx, dy) => setImgHeight (setImgWidth w (inject_Z dx)) (inject_Z dy)
        | None => w
        end
      else w
    else if negb (isZero (ImgWidth w)) && isZero (ImgHeight w) then
      if (0 <? String.length (Bytes w))%nat then
        match imageDecode l (Bytes w) with
        | Some (dx, dy) =>
            let originalWidth := inject_Z dx in
            let originalHeight := inject_Z dy in
            if Qgtb originalWidth 0
            then setImgHeight w ((ImgWidth w / originalWidth) * originalHeight)
            else w
        | None => w
        end
      else w
    else if negb (isZero (ImgHeight w)) && isZero (ImgWidth w) then
      if (0 <? String.length (Bytes w))%nat then
        match imageDecode l (Bytes w) with
        | Some (dx, dy) =>
            let originalWidth := inject_Z dx in
            let originalHeight := inject_Z dy in
            if Qgtb originalHeight 0
            then setImgWidth w ((ImgHeight w / originalHeight) * originalWidth)
            else w
        | None => w
        end
      else w
    else w in
  let w := if isZero (ImgWidth w) then setImgWidth w 100 else w in
  let w := if isZero (ImgHeight w) then setImgHeight w 100 else w in
  let w := if Qgtb (ImgMaxHeight w) 0 && Qgtb (ImgHeight w) (ImgMaxHeight w) then
             let ratio := ImgMaxHeight w / ImgHeight w in
             setImgHeight (setImgWidth w (ImgWidth w * ratio)) (ImgMaxHeight w)
           else w in
  let w := if Qgtb (ImgMaxWidth w) 0 && Qgtb (ImgWidth w) (ImgMaxWidth w) then
             let ratio := ImgMaxWidth w / ImgWidth w in
             setImgWidth (setImgHeight w (ImgHeight w * ratio)) (ImgMaxWidth w)
           else w in
  let w := setWidth w (ImgWidth w) in
  let w := setHeight w (ImgHeight w) in
  addjustCalculatedSize w.

Definition linesOf (w : Widget) : list string :=
  match ValueLines w with Some ls => ls | None => [] end.

Definition initValueSize (l : Layouter) (w : Widget) : Widget :=
  let w :=
    if isZero (Width w) then
      let maxWidth :=
        List.fold_left
          (fun maxWidth line =>
             let width := MeasureTextWidth (pdLibDoc l) line in
             if Qgtb width maxWidth then width else maxWidth)
          (linesOf w) 0 in
      updCalc w (fun c => Calc.setWidth c maxWidth)
    else updCalc w (fun c => Calc.setWidth c (Width w)) in
  let w :=
    if isZero (Calc.InnerHeight (Calculated w)) then
      let lines := List.length (linesOf w) in
      updCalc w (fun c => Calc.setInnerHeight c (ofNat lines * Calc.LineHeight c))
    else w in
  recalculateFromInnerHeight (addjustCalculatedWidth w).

Definition isImageType (t : string) : bool :=
  String.eqb t "image" || String.eqb t "qr".

Definition initCarry (l : Layouter) (w : Widget) (carry : option Widget) : option Widget :=
  match carry with
  | Some h => Some (initValueSize l (initCalculatedInfo h (Some w)))
  | None => None
  end.

Fixpoint initFixedSizes (l : Layouter) (w : Widget) (parentWidth : Q) : Widget :=
  if isImageType (Type_ w) then addjustCalculatedWidth (initImageSizeWidget l w)
  else
    let w1 :=
      if String.eqb (Type_ w) "table" then
        let w := setCarryHeader w (initCarry l w (CarryHeader w)) in
        setCarryFooter w (initCarry l w (CarryFooter w))
      else
        match ValueLines w with
        | Some _ => initValueSize l w
        | None => w
        end in
    setChildren w1
      (List.map (fun child => initFixedSizes l child parentWidth) (Children w)).

(** *** Text wrapping *)

Definition measureTextWidth (l : Layouter) (fontSize : Q) (text : string) : Q :=
  let current := DocFontSize (pdLibDoc l) in
  if negb (Qeq_bool current fontSize)
  then MeasureTextWidth (mkPdfLibDoc fontSize) text
  else MeasureTextWidth (pdLibDoc l) text.

Definition runeString (r : ascii) : string := String r EmptyString.

(** The scan [for _, r := range runes] of the word breaker: the runes taken
    for the next chunk. *)
Fixpoint scanRunes (l : Layouter) (fontSize availableWidth : Q)
    (runes : list ascii) (wordWidth : Q) (wordBuff : list string) : list string :=
  match runes with
  | [] => wordBuff
  | r :: rest =>
      let s := runeString r in
      let charWidth := measureTextWidth l fontSize s in
      if Qgtb (wordWidth + charWidth) availableWidth
         && (0 <? List.length wordBuff)%nat
      then wordBuff
      else scanRunes l fontSize availableWidth rest
             (wordWidth + charWidth) (append wordBuff s)
  end.

(** The loop [for len(remainingWord) > 0]; [None] when [fuel] iterations do
    not end it. *)
Fixpoint breakWord (l : Layouter) (fontSize availableWidth : Q) (fuel : nat)
    (remainingWord : string) (lines : list string) : option (list string) :=
  if (String.length remainingWord =? 0)%nat then Some lines
  else
    match fuel with
    | O => None
    | S fuel' =>
        let runes := list_ascii_of_string remainingWord in
        let wordBuff := scanRunes l fontSize availableWidth runes 0 [] in
        if (0 <? List.length wordBuff)%nat then
          breakWord l fontSize availableWidth fuel'
            (string_of_list_ascii (List.skipn (List.length wordBuff) runes))
            (append lines (Join wordBuff ""))
        else
          breakWord l fontSize availableWidth fuel'
            (string_of_list_ascii (List.skipn 1 runes))
            (append lines (string_of_list_ascii (List.firstn 1 runes)))
    end.

(** The state of the word loop: the lines emitted, the words of the line
    being filled, and its tracked width. *)
Definition WrapState : Type := (list string * list string * Q)%type.

Definition flushLine (lines line : list string) : list string :=
  if (0 <? List.length line)%nat then append lines (Join line " ") else lines.

Definition wordStep (l : Layouter) (fontSize availableWidth spaceWidth : Q)
    (st : WrapState) (word : string) : option WrapState :=
  let '(lines, line, lineWidth) := st in
  let wordWidth := measureTextWidth l fontSize word in
  if Qgtb wordWidth availableWidth then
    let lines := flushLine lines line in
    match breakWord l fontSize availableWidth (String.length word) word lines with
    | Some lines => Some (lines, [], 0)
    | None => None
    end
  else if Qgtb (lineWidth + wordWidth) availableWidth then
    let lines := flushLine lines line in
    Some (lines, [word], wordWidth)
  else
    Some (lines, append line word, lineWidth + wordWidth + spaceWidth).

Fixpoint wordsLoop (l : Layouter) (fontSize availableWidth spaceWidth : Q)
    (words : list string) (st : WrapState) : option WrapState :=
  match words with
  | [] => Some st
  | word :: rest =>
      match wordStep l fontSize availableWidth spaceWidth st word with
      | Some st' => wordsLoop l fontSize availableWidth spaceWidth rest st'
      | None => None
      end
  end.

Fixpoint textLinesLoop (l : Layouter) (fontSize availableWidth spaceWidth : Q)
    (textLines : list string) (lines : list string) : option (list string) :=
  match textLines with
  | [] => Some lines
  | textLine :: rest =>
      let textLine := TrimSpace textLine in
      if strEmpty textLine
      then textLinesLoop l fontSize availableWidth spaceWidth rest lines
      else
        match wordsLoop l fontSize availableWidth spaceWidth (Fields textLine)
                        (lines, [], 0) with
        | Some (lines, line, _) =>
            textLinesLoop l fontSize availableWidth spaceWidth rest
                          (flushLine lines line)
        | None => None
        end
  end.

(** [splitLines], with the outcome of its loops explicit: [None] would be a
    word loop that does not end ([splitLinesRun_total] shows there is none). *)
Definition splitLinesRun (l : Layouter) (text : string) (fontSize availableWidth : Q)
  : option (list string) :=
  let spaceWidth := measureTextWidth l fontSize " " in
  textLinesLoop l fontSize availableWidth spaceWidth (splitByte "010"%char text) [].

Definition splitLines (l : Layouter) (text : string) (fontSize availableWidth : Q)
  : list string :=
  match splitLinesRun l text fontSize availableWidth with
  | Some lines => lines
  | None => []
  end.

Definition wrapText (l : Layouter) (w : Widget) : Widget :=
  let buf : option (list string) :=
    if negb (strEmpty (Value w))
    then goSlice (splitLines l (Value w) (Calc.FontSize (Calculated w))
                             (Calc.InnerWidth (Calculated w)))
    else Some [] in
  let w :=
    if Wrap w then
      if (0 <? lenOpt buf)%nat
      then setValueLines w (Some (List.firstn 1 (match buf with Some b => b | None => [] end)))
      else setValueLines w (Some [])
    else setValueLines w buf in
  if isZero (Height w) then
    let lines := lenOpt (ValueLines w) in
    recalculateFromInnerHeight
      (updCalc w (fun c => Calc.setInnerHeight c (ofNat lines * Calc.LineHeight c)))
  else w.

Fixpoint reflowTexts (l : Layouter) (w : Widget) : Widget :=
  if (0 <? lenOpt (ValueLines w))%nat then wrapText l w
  else setChildren w (List.map (reflowTexts l) (Children w)).

(** *** Width distribution *)

Definition mapM {A B : Type} (f : A -> option B) : list A -> option (list B) :=
  fix go (xs : list A) : option (list B) :=
    match xs with
    | [] => Some []
    | x :: t =>
        match f x with
        | Some y => match go t with Some ys => Some (y :: ys) | None => None end
        | None => None
        end
    end.

Definition sumQ (xs : list Q) : Q := List.fold_left Qplus xs 0.

Fixpoint getOuterWidth (w : Widget) : Q :=
  match Children w with
  | [] => Calc.OuterWidth (Calculated w)
  | _ =>
      if String.eqb (Calc.Direction (Calculated w)) "row" then
        let width :=
          List.fold_left (fun width child => width + getOuterWidth child)
                         (Children w) 0 in
        if Qgtb (Gap w) 0
        then width + ofNat (List.length (Children w) - 1) * Gap w
        else width
      else
        List.fold_left
          (fun maxWidth child =>
             let cw := getOuterWidth child in
             if Qgtb cw maxWidth then cw else maxWidth)
          (Children w) 0
  end.

(** One row of the first loop of [adjustColumns]: the column maxima updated
    with the cells of the row; [None] is the panic on a short row. *)
Fixpoint columnMaxima (cells : list Widget) (columnSizes : list Q) : option (list Q) :=
  match columnSizes, cells with
  | [], _ => Some []
  | _ :: _, [] => None
  | size :: sizes, cell :: cells' =>
      let rowMax := if negb (isZero (Width cell)) then Width cell
                    else getOuterWidth cell in
      match columnMaxima cells' sizes with
      | Some rest => Some ((if Qgtb rowMax size then rowMax else size) :: rest)
      | None => None
      end
  end.

Fixpoint allColumnMaxima (rows : list Widget) (columnSizes : list Q) : option (list Q) :=
  match rows with
  | [] => Some columnSizes
  | row :: rest =>
      match columnMaxima (Children row) columnSizes with
      | Some sizes => allColumnMaxima rest sizes
      | None => None
      end
  end.

(** One row of the last loop of [adjustColumns]. *)
Fixpoint resizeCells (l : Layouter) (cells : list Widget) (columnSizes : list Q)
  : option (list Widget) :=
  match columnSizes, cells with
  | [], _ => Some cells
  | _ :: _, [] => None
  | size :: sizes, cell :: cells' =>
      let cell := updCalc cell (fun c => Calc.setOuterWidth c size) in
      let cell := recalculateFromOuterWidth cell in
      let cell := reflowTexts l cell in
      let cell :=
        if negb (strEmpty (Align cell))
        then setChildren cell
               (List.map (fun item => setAlign item (Align cell)) (Children cell))
        else cell in
      match resizeCells l cells' sizes with
      | Some rest => Some (cell :: rest)
      | None => None
      end
  end.

Definition adjustColumns (l : Layouter) (table : Widget) : option Widget :=
  match Children table with
  | [] => Some table
  | row :: _ =>
      let columnCount := List.length (Children row) in
      match allColumnMaxima (Children table) (List.repeat 0 columnCount) with
      | None => None
      | Some columnSizes =>
          let totalWidth := sumQ columnSizes in
          let tableWidth := Calc.InnerWidth (Calculated table) in
          let ratio := tableWidth / totalWidth in
          if Qeq_bool ratio 1 then Some table
          else
            let columnSizes := List.map (fun size => size * ratio) columnSizes in
            match mapM (fun row =>
                          match resizeCells l (Children row) columnSizes with
                          | Some cells => Some (setChildren row cells)
                          | None => None
                          end) (Children table) with
            | Some rows => Some (setChildren table rows)
            | None => None
            end
      end
  end.

(** The first statement of [initWidgetsWidth]: the widget's own width. *)
Definition ownWidth (w : Widget) (parentWidth : Q) : Widget :=
  if isZero (Width w) then
    recalculateFromOuterWidth (updCalc w (fun c => Calc.setOuterWidth c parentWidth))
  else if Qgtb (Calc.OuterWidth (Calculated w)) parentWidth then
    recalculateFromOuterWidth (updCalc w (fun c => Calc.setOuterWidth c parentWidth))
  else addjustCalculatedWidth w.

(** The quantities of the row branch. *)
Definition rowGap (w : Widget) : Q := Gap w * ofNat (List.length (Children w) - 1).

Definition rowSumWidth (w : Widget) : Q :=
  let sumWidth :=
    List.fold_left (fun sumWidth child => sumWidth + Calc.OuterWidth (Calculated child))
                   (Children w) 0 in
  if Qgtb (rowGap w) 0 then sumWidth + rowGap w else sumWidth.

Definition fixedItems (w : Widget) : list Widget :=
  List.filter (fun child => negb (isZero (Width child))) (Children w).

Definition autoItems (w : Widget) : list Widget :=
  List.filter (fun child => isZero (Width child)) (Children w).

Definition autoItemWidth (w : Widget) (innerWidth : Q) : Q :=
  let remaining :=
    List.fold_left (fun remaining item => remaining - Calc.OuterWidth (Calculated item))
                   (fixedItems w) innerWidth in
  let remaining := remaining - rowGap w in
  remaining / ofNat (List.length (autoItems w)).

Definition equalItemWidth (w : Widget) (innerWidth : Q) : Q :=
  let remaining := innerWidth - rowGap w in
  remaining / ofNat (List.length (Children w)).

(** [initWidgetsWidth]; a widget without children returns after its own
    width (for the empty non-nil slice the loops and [adjustColumns] do
    nothing, so it is the same). *)
Fixpoint initWidgetsWidth (l : Layouter) (w : Widget) (parentWidth : Q) : option Widget :=
  let w1 := ownWidth w parentWidth in
  match Children w with
  | [] => Some w1
  | _ =>
      let innerWidth := Calc.InnerWidth (Calculated w1) in
      let children : option (list Widget) :=
        if String.eqb (Direction w1) "row" then
          if Qltb (rowSumWidth w1) innerWidth then
            if (0 <? List.length (autoItems w1))%nat then
              let itemWidth := autoItemWidth w1 innerWidth in
              mapM (fun child =>
                      if isZero (Width child)
                      then initWidgetsWidth l child itemWidth
                      else Some child) (Children w)
            else Some (Children w)
          else
            let itemWidth := equalItemWidth w1 innerWidth in
            mapM (fun child => initWidgetsWidth l child itemWidth) (Children w)
        else
          mapM (fun child => initWidgetsWidth l child innerWidth) (Children w) in
      match children with
      | None => None
      | Some children =>
          let w2 := setChildren w1 children in
          if String.eqb (Type_ w2) "table" then adjustColumns l w2 else Some w2
      end
  end.

(** *** Heights *)

Definition getHeightFromInnerHeight (w : Widget) (innerHeight : Q) : Q :=
  let h := innerHeight in
  let h := match Padding w with Some p => h + (Top p + Bottom p) | None => h end in
  match Margin w with Some m => h + (Top m + Bottom m) | None => h end.

Fixpoint getHeight (w : Widget) : Q :=
  match Children w with
  | [] =>
      if negb (isZero (Calc.OuterHeight (Calculated w)))
      then Calc.OuterHeight (Calculated w) else 0
  | _ =>
      if String.eqb (Calc.Direction (Calculated w)) "column" then
        let height :=
          List.fold_left (fun height child => height + getHeight child)
                         (Children w) 0 in
        let height :=
          if Qgtb (Gap w) 0
          then height + Gap w * ofNat (List.length (Children w) - 1)
          else height in
        getHeightFromInnerHeight w height
      else
        let maxHeight :=
          List.fold_left
            (fun maxHeight child =>
               let h := getHeight child in
               if Qgtb h maxHeight then h else maxHeight)
            (Children w) 0 in
        getHeightFromInnerHeight w maxHeight
  end.

Definition getItemsInnerHeight (w : Widget) : Q :=
  if String.eqb (Calc.Direction (Calculated w)) "column" then
    let height :=
      List.fold_left (fun height child => height + Calc.InnerHeight (Calculated child))
                     (Children w) 0 in
    if Qgtb (Gap w) 0
    then height + Gap w * ofNat (List.length (Children w) - 1)
    else height
  else
    List.fold_left
      (fun maxHeight child =>
         if Qgtb (Calc.InnerHeight (Calculated child)) maxHeight
         then Calc.InnerHeight (Calculated child) else maxHeight)
      (Children w) 0.

(** The body of the row loop of [adjustRowsHeight]: the row with its cells
    levelled, and the row height. *)
Definition adjustRowHeight (row : Widget) : Widget * Q :=
  let maxCellHeight := getItemsInnerHeight row in
  let cells :=
    List.map (fun cell =>
                recalculateFromInnerHeight
                  (updCalc cell (fun c => Calc.setInnerHeight c maxCellHeight)))
             (Children row) in
  let rowHeight :=
    List.fold_left
      (fun rowHeight cell =>
         if Qgtb (Calc.OuterHeight (Calculated cell)) rowHeight
         then Calc.OuterHeight (Calculated cell) else rowHeight)
      cells 0 in
  let row := setChildren row cells in
  let row := updCalc row (fun c => Calc.setInnerHeight c rowHeight) in
  (recalculateFromInnerHeight row, rowHeight).

Definition adjustRowsHeight (table : Widget) : Widget :=
  let rows := List.map adjustRowHeight (Children table) in
  let height := List.fold_left (fun height r => height + snd r) rows 0 in
  let table := setChildren table (List.map fst rows) in
  recalculateFromInnerHeight
    (updCalc table (fun c => Calc.setInnerHeight c height)).

Fixpoint initWidgetsHeight (w : Widget) : Widget :=
  let w := setChildren w (List.map initWidgetsHeight (Children w)) in
  let w :=
    if isZero (Height w) then
      recalculateFromOuterHeight
        (updCalc w (fun c => Calc.setOuterHeight c (getHeight w)))
    else addjustCalculatedHeight w in
  if String.eqb (Type_ w) "table" then adjustRowsHeight w else w.

(** *** The sizing pass *)

Definition initWidgetSize (l : Layouter) (w : Widget) (innerWidth : Q) : option Widget :=
  let w := initFixedSizes l w innerWidth in
  match initWidgetsWidth l w innerWidth with
  | Some w => Some (initWidgetsHeight (reflowTexts l w))
  | None => None
  end.

Definition initPageSize (l : Layouter) (page : Page) : option Page :=
  let pw := addjustCalculatedSize (PageWidget page) in
  let header :=
    match Header page with
    | Some h =>
        match initWidgetSize l (initCalculatedInfo h (Some pw))
                             (Calc.OuterWidth (Calculated pw)) with
        | Some h' => Some (Some h')
        | None => None
        end
    | None => Some None
    end in
  match header with
  | None => None
  | Some header =>
      match mapM (fun w => initWidgetSize l w (Calc.InnerWidth (Calculated pw)))
                 (Children pw) with
      | None => None
      | Some children =>
          let footer :=
            match Footer page with
            | Some f =>
                match initWidgetSize l (initCalculatedInfo f (Some pw))
                                     (Calc.OuterWidth (Calculated pw)) with
                | Some f' => Some (Some f')
                | None => None
                end
            | None => Some None
            end in
          match footer with
          | None => None
          | Some footer =>
              Some (mkPage (setChildren pw children) header footer
                           (ResetPageNumbers page))
          end
      end
  end.

(** [initSizes]: [initCalculatedInfo] walks the document widget and, through
    [doc.Children], every page widget and its subtree. *)
Definition initSizes (l : Layouter) (doc : Document) : option Document :=
  let dw := initCalculatedInfoOwn (DocWidget doc) None in
  let pages :=
    List.map (fun p => setPageWidget p (initCalculatedInfo (PageWidget p) (Some dw)))
             (Pages doc) in
  match mapM (initPageSize l) pages with
  | Some pages => Some (mkDocument dw pages)
  | None => None
  end.

(** *** Positions *)

Fixpoint setWidgetPosition (w : Widget) (parentX parentY : Q) : Widget :=
  let w1 := updCalc w (fun c =>
              Calc.setInnerX c (if negb (isZero (X w)) then X w else parentX)) in
  let w1 := updCalc w1 (fun c =>
              Calc.setInnerY c (if negb (isZero (Y w)) then Y w else parentY)) in
  let w1 := adjustCalculatedPositionFromInner w1 in
  match Children w with
  | [] => w1
  | _ =>
      let gap := Gap w1 in
      let direction := Calc.Direction (Calculated w1) in
      let rightAligned := String.eqb (Align w1) "right" in
      let x0 :=
        if rightAligned && String.eqb direction "row" then
          let width :=
            List.fold_left
              (fun width child => width + Calc.OuterWidth (Calculated child))
              (Children w) 0 in
          let width :=
            if Qgtb gap 0
            then width + gap * ofNat (List.length (Children w) - 1) else width in
          Calc.InnerWidth (Calculated w1) - width
        else 0 in
      let children :=
        (fix place (cs : list Widget) (x y : Q) : list Widget :=
           match cs with
           | [] => []
           | child :: rest =>
               let x := if rightAligned && String.eqb direction "column"
                        then Calc.InnerWidth (Calculated w1)
                             - Calc.OuterWidth (Calculated child)
                        else x in
               let child1 := updCalc child (fun c =>
                               Calc.setInnerX c
                                 (if negb (isZero (X child)) then X child else x)) in
               let child1 := updCalc child1 (fun c =>
                               Calc.setInnerY c
                                 (if negb (isZero (Y child)) then Y child else y)) in
               let child1 := adjustCalculatedPositionFromInner child1 in
               (* the call sets all six coordinates anew, so it may start
                  from [child] as well as from [child1] *)
               let child2 :=
                 setWidgetPosition child (Calc.OuterX (Calculated child1))
                                   (Calc.OuterY (Calculated child1)) in
               if String.eqb direction "column"
               then child2 :: place rest x
                              (y + (Calc.OuterHeight (Calculated child2) + gap))
               else child2 :: place rest
                              (x + (Calc.OuterWidth (Calculated child2) + gap)) y
           end) (Children w) x0 0 in
      setChildren w1 children
  end.

Definition setPagePositions (page : Page) : Page :=
  let pw := PageWidget page in
  let pw := updCalc pw (fun c => Calc.setInnerY (Calc.setInnerX c 0) 0) in
  let pw := adjustCalculatedPositionFromInner pw in
  let header := option_map (fun h => setWidgetPosition h 0 0) (Header page) in
  let pw := setChildren pw (List.map (fun w => setWidgetPosition w 0 0) (Children pw)) in
  let footer := option_map (fun f => setWidgetPosition f 0 0) (Footer page) in
  mkPage pw header footer (ResetPageNumbers page).

Definition setPositions (doc : Document) : Document :=
  let dw := DocWidget doc in
  let dw := updCalc dw (fun c => Calc.setInnerY (Calc.setInnerX c 0) 0) in
  let dw := adjustCalculatedPositionFromInner dw in
  mkDocument dw (List.map setPagePositions (Pages doc)).

(** *** Pagination *)

(** Outcomes of the pagination loops: a value, a Go panic, or a loop that
    did not end within the iterations allowed. *)
Inductive Res (A : Type) : Type :=
  | Ok (a : A)
  | Panic
  | OutOfFuel.
Arguments Ok {A} a.
Arguments Panic {A}.
Arguments OutOfFuel {A}.

Definition bindRes {A B : Type} (r : Res A) (k : A -> Res B) : Res B :=
  match r with
  | Ok a => k a
  | Panic => Panic
  | OutOfFuel => OutOfFuel
  end.

(** [deepCloneWidget] and [deepCloneCalculated] copy a value field by field;
    on values they are the identity. *)
Definition deepCloneWidget (w : Widget) : Widget := w.
Definition deepCloneCalculated (c : Calc.t) : Calc.t := c.

Definition copyPage (page : Page) (copyReset : bool) : Page :=
  let p := PageWidget page in
  let copy :=
    mkWidget 0 0 0 0 "page" (Padding p) None (LineHeight p) (FontFamily p)
      (FontSize p) (Bold p) (Color_ p) (BackgroundColor p) (Gap p) (Direction p)
      [] "" None false (Align p) None (deepCloneCalculated (Calculated p)) 0%Z
      [] 0%Z None None None None None 0 false "" 0 0 0 0 in
  mkPage copy (option_map deepCloneWidget (Header page))
         (option_map deepCloneWidget (Footer page))
         (if copyReset then ResetPageNumbers page else false).

(** [resetY]: the widgets without a declared [Y] flow from [currentY]. *)
Fixpoint resetY (widgets : list Widget) (y gap : Q) : list Widget :=
  match widgets with
  | [] => []
  | w :: rest =>
      if isZero (Y w) then
        let w := adjustCalculatedY (updCalc w (fun c => Calc.setOuterY c y)) in
        w :: resetY rest (y + (Calc.OuterHeight (Calculated w) + gap)) gap
      else w :: resetY rest y gap
  end.

Definition setCellsBackground (alternateColor : option Color) (even : bool)
    (row : Widget) : Widget :=
  setChildren row
    (List.map (fun cell =>
                 if even then
                   match BackgroundColor cell with
                   | None => setBackgroundColor cell alternateColor
                   | Some _ => cell
                   end
                 else setBackgroundColor cell None)
              (Children row)).

(** The loop [for i := 1; i < len(rows); i++] of [setAlternateColor], from
    index [i]. *)
Fixpoint alternateFrom (i : nat) (rows : list Widget) (alternateColor : option Color)
  : list Widget :=
  match rows with
  | [] => []
  | row :: rest =>
      setCellsBackground alternateColor (Nat.even i) row
        :: alternateFrom (S i) rest alternateColor
  end.

Definition setAlternateColor (rows : list Widget) (alternateColor : option Color)
  : list Widget :=
  match alternateColor with
  | None => rows
  | Some _ =>
      match rows with
      | [] => []
      | row0 :: rest => row0 :: alternateFrom 1 rest alternateColor
      end
  end.

(** [getColumnSum]; [None] is the panic of [row.Children[column]]. *)
Fixpoint getColumnSum (l : Layouter) (rows : list Widget) (column : nat) (total : Q)
  : option Q :=
  match rows with
  | [] => Some total
  | row :: rest =>
      match List.nth_error (Children row) column with
      | None => None
      | Some cell =>
          if IsHeader cell then getColumnSum l rest column total
          else
            match ValueLines cell with
            | Some [line] =>
                match formatter l with
                | Some parseNumber =>
                    match parseNumber line with
                    | Some value => getColumnSum l rest column (total + value)
                    | None => getColumnSum l rest column total
                    end
                | None => getColumnSum l rest column total
                end
            | _ => getColumnSum l rest column total
            end
      end
  end.

Fixpoint resetRowsYFrom (rows : list Widget) (y : Q) : list Widget :=
  match rows with
  | [] => []
  | row :: rest =>
      let row := adjustCalculatedY (updCalc row (fun c => Calc.setOuterY c y)) in
      row :: resetRowsYFrom rest (y + Calc.OuterHeight (Calculated row))
  end.

Definition resetRowsY (w : Widget) : Widget :=
  let w := adjustCalculatedY (updCalc w (fun c => Calc.setOuterY c 0)) in
  setChildren w (resetRowsYFrom (Children w) 0).

(** The row filter of [splitTable]: the number of leading rows that fit
    ([index]; [found] is [index > 0]). *)
Fixpoint fitIndex (currentY innerHeight : Q) (rows : list Widget) : nat :=
  match rows with
  | [] => O
  | row :: rest =>
      let rowBottom := currentY + Calc.OuterY (Calculated row)
                       + Calc.OuterHeight (Calculated row) in
      if Qgtb rowBottom innerHeight then O
      else S (fitIndex currentY innerHeight rest)
  end.

(** How the main loop of [splitTable] was left: no pending row fits
    ([break] after the filter), or no row is left. *)
Inductive LoopExit : Type := ExitNoFit | ExitDone.

(** The outcome of [splitTable]: the table clones in page order (the first
    one is the incoming table, every later one is the only child of a page
    appended to [pages]), [pageBreak], and how the loop ended. *)
Record splitTableResult := mkSplitTableResult {
  tables : list Widget;
  pageBreak : bool;
  loopExit : LoopExit
}.

Definition lastTable (r : splitTableResult) : Widget :=
  List.last (tables r) emptyWidget.

Definition clearCarryNext (ts : list Widget) : list Widget :=
  match List.rev ts with
  | [] => []
  | t :: before => List.rev (setCarryNext t None :: before)
  end.

(** The main loop.  [done] holds the clones already completed, [currentTable]
    the one being filled; [table] is the clone taken before the loop and
    [headerRow] the header to repeat. *)
Fixpoint splitTableLoop (l : Layouter) (fuel : nat) (table : Widget)
    (headerRow : option Widget) (innerHeight : Q)
    (rows : list Widget) (currentTable : Widget) (currentY : Q)
    (pageIndex : Z) (carryLast : option Q) (pageBreak : bool)
    (done : list Widget) : Res splitTableResult :=
  match fuel with
  | O => OutOfFuel
  | S fuel' =>
      let index := fitIndex currentY innerHeight rows in
      if (index =? 0)%nat then
        Ok (mkSplitTableResult (append done currentTable) pageBreak ExitNoFit)
      else
        let currentRows := List.firstn index rows in
        let currentRows := setAlternateColor currentRows (AlternateColor table) in
        let rows := List.skipn index rows in
        let currentTable := setPageNumber currentTable pageIndex in
        let currentTable := setChildren currentTable currentRows in
        let totalHeight :=
          List.fold_left
            (fun totalHeight row => totalHeight + Calc.OuterHeight (Calculated row))
            currentRows 0 in
        let currentTable :=
          recalculateFromInnerHeight
            (updCalc currentTable (fun c => Calc.setInnerHeight c totalHeight)) in
        let carried : option (Widget * option Q) :=
          if (0 <=? CarryColumn table)%Z then
            let currentTable := setCarryLast currentTable carryLast in
            match getColumnSum l currentRows (Z.to_nat (CarryColumn table)) 0 with
            | None => None
            | Some sum =>
                let nextValue := match carryLast with Some v => v | None => 0 end in
                let nextValue := nextValue + sum in
                Some (setCarryNext currentTable (Some nextValue), Some nextValue)
            end
          else Some (currentTable, carryLast) in
        match carried with
        | None => Panic
        | Some (currentTable, carryLast) =>
            if (List.length rows =? 0)%nat then
              Ok (mkSplitTableResult (append done currentTable) pageBreak ExitDone)
            else
              let done := append done currentTable in
              let currentTable := deepCloneWidget table in
              let rows := match headerRow with
                          | Some h => deepCloneWidget h :: rows
                          | None => rows
                          end in
              let currentTable := setChildren currentTable rows in
              let currentTable := recalculateFromInnerHeight currentTable in
              let currentTable := resetRowsY currentTable in
              let pageIndex := (pageIndex + 1)%Z in
              let currentTable := setPageNumber currentTable pageIndex in
              splitTableLoop l fuel' table headerRow innerHeight
                (Children currentTable) currentTable 0 pageIndex carryLast true done
        end
  end.

Definition splitTable (l : Layouter) (fuel : nat) (w : Widget) (currentY : Q)
    (page : Page) : Res splitTableResult :=
  let margin := match Margin w with Some m => Top m + Bottom m | None => 0 end in
  let innerHeight := Calc.InnerHeight (Calculated (PageWidget page)) - margin in
  let headerRow : option (option Widget) :=
    if (0 <? List.length (Columns w))%nat then
      match Children w with
      | row0 :: _ => Some (Some (deepCloneWidget row0))
      | [] => None
      end
    else Some None in
  match headerRow with
  | None => Panic
  | Some headerRow =>
      let rows := Children w in
      let w := setChildren w [] in
      let table := deepCloneWidget w in
      bindRes
        (splitTableLoop l fuel table headerRow innerHeight rows w currentY 0%Z
                        None false [])
        (fun r => Ok (mkSplitTableResult (clearCarryNext (tables r))
                                         (pageBreak r) (loopExit r)))
  end.

(** The pages built so far; the current page is the last one. *)
Definition currentChildren (pages : list Page) : list Widget :=
  match List.rev pages with
  | [] => []
  | p :: _ => Children (PageWidget p)
  end.

Definition onCurrentPage (f : list Widget -> list Widget) (pages : list Page)
  : list Page :=
  match List.rev pages with
  | [] => []
  | p :: before =>
      List.rev (setPageWidget p (setChildren (PageWidget p) (f (Children (PageWidget p))))
                  :: before)
  end.

(** [currentPage.Children = append(currentPage.Children, w)] *)
Definition addChild (pages : list Page) (w : Widget) : list Page :=
  onCurrentPage (fun cs => append cs w) pages.

(** The effect of [splitTable] on the pages: the table just placed becomes
    the first clone, and every later clone gets a page of its own. *)
Definition placeTables (page : Page) (pages : list Page) (ts : list Widget)
  : list Page :=
  match ts with
  | [] => pages
  | first :: later =>
      (onCurrentPage (fun cs => append (List.removelast cs) first) pages
       ++ List.map (fun t =>
                      let p := copyPage page false in
                      setPageWidget p (setChildren (PageWidget p) [t]))
                   later)%list
  end.

(** [sort.Slice] on the outer y; equal keys keep their order here (the Go
    library leaves it unspecified). *)
Fixpoint insertByOuterY (w : Widget) (sorted : list Widget) : list Widget :=
  match sorted with
  | [] => [w]
  | h :: t =>
      if Qltb (Calc.OuterY (Calculated h)) (Calc.OuterY (Calculated w))
      then h :: insertByOuterY w t
      else w :: h :: t
  end.

Definition sortByOuterY (ws : list Widget) : list Widget :=
  List.fold_right insertByOuterY [] ws.

Definition resetYCons (w : Widget) (rest : list Widget) (y gap : Q)
  : Widget * list Widget :=
  match resetY (w :: rest) y gap with
  | w' :: rest' => (w', rest')
  | [] => (w, rest)
  end.

(** The loop of [splitPage] over [children[i:]]; [n] bounds the number of
    children left, [fuel] the iterations of each table split. *)
Fixpoint splitPageLoop (l : Layouter) (fuel : nat) (page : Page) (n : nat)
    (children : list Widget) (pages : list Page) (currentY : Q)
  : Res (list Page) :=
  match children with
  | [] => Ok pages
  | w :: rest =>
      match n with
      | O => OutOfFuel
      | S n' =>
          let pageBottom := Calc.InnerHeight (Calculated (PageWidget page)) in
          let gap := Gap (PageWidget page) in
          let '(pages, currentY, (w, rest)) :=
            if (List.length pages =? 0)%nat || Qgeb currentY pageBottom
            then (append pages (copyPage page true), 0, resetYCons w rest 0 gap)
            else (pages, currentY, (w, rest)) in
          let bottom := currentY + Calc.OuterHeight (Calculated w) in
          let isTable := String.eqb (Type_ w) "table" in
          let '(pages, currentY, (w, rest)) :=
            if (0 <? List.length (currentChildren pages))%nat && negb isTable
               && Qgtb bottom pageBottom
            then (append pages (copyPage page false), 0, resetYCons w rest 0 gap)
            else (pages, currentY, (w, rest)) in
          let pages := addChild pages w in
          let split : Res (list Page * Q * Widget * bool) :=
            if isTable && Qgtb (bottom + BreakMargin w) pageBottom then
              bindRes (splitTable l fuel w currentY page)
                (fun r => Ok (placeTables page pages (tables r), 0, lastTable r,
                              pageBreak r))
            else Ok (pages, currentY, w, false) in
          bindRes split
            (fun '(pages, currentY, w, tablePageBreak) =>
               let currentY := currentY + Calc.OuterHeight (Calculated w) in
               let currentY := if Qgtb gap 0 then currentY + gap else currentY in
               let rest := if tablePageBreak then resetY rest currentY gap else rest in
               splitPageLoop l fuel page n' rest pages currentY)
      end
  end.

Definition splitPage (l : Layouter) (fuel : nat) (page : Page) : Res (list Page) :=
  let children := sortByOuterY (Children (PageWidget page)) in
  splitPageLoop l fuel page (List.length children) children [] 0.

Fixpoint splitAll (l : Layouter) (fuel : nat) (pages : list Page) : Res (list Page) :=
  match pages with
  | [] => Ok []
  | page :: rest =>
      bindRes (splitPage l fuel page)
        (fun splitted =>
           bindRes (splitAll l fuel rest)
             (fun more => Ok (splitted ++ more)%list))
  end.

Definition splitPages (l : Layouter) (fuel : nat) (doc : Document) : Res Document :=
  bindRes (splitAll l fuel (Pages doc)) (fun pages => Ok (mkDocument (DocWidget doc) pages)).

(** *** Page numbers *)

(** The grouping loop of [setPageNumbers] from page [i]: the groups closed
    so far and the group being filled. *)
Fixpoint groupLoop (i : nat) (pages : list Page) (groups : list (list Page))
    (currentGroup : list Page) : list (list Page) * list Page :=
  match pages with
  | [] => (groups, currentGroup)
  | page :: rest =>
      let '(groups, currentGroup) :=
        if ResetPageNumbers page || (i =? 0)%nat then
          ((if (0 <? i)%nat && (0 <? List.length currentGroup)%nat
            then append groups currentGroup else groups), [])
        else (groups, currentGroup) in
      groupLoop (S i) rest groups (append currentGroup page)
  end.

Definition pageGroups (pages : list Page) : list (list Page) :=
  let '(groups, currentGroup) := groupLoop 0 pages [] [] in
  if (0 <? List.length currentGroup)%nat then append groups currentGroup else groups.

(** [fmt.Sprintf("%d", n)] for a natural number. *)
Definition sprintd (n : nat) : string := NilEmpty.string_of_uint (Nat.to_uint n).

Definition interpolateLine (page pages : string) (line : string) : string :=
  let line := ReplaceAll line "{page}" page in
  ReplaceAll line "{pages}" pages.

Fixpoint interpolatePageNumbers (w : Widget) (page pages : string) : Widget :=
  match ValueLines w with
  | Some lines => setValueLines w (Some (List.map (interpolateLine page pages) lines))
  | None =>
      setChildren w
        (List.map (fun child => interpolatePageNumbers child page pages) (Children w))
  end.

(** The inner loop of [setPageNumbers] over one group, from index [i]. *)
Fixpoint numberGroupFrom (i total : nat) (group : list Page) : list Page :=
  match group with
  | [] => []
  | page :: rest =>
      let current := sprintd (i + 1) in
      let total' := sprintd total in
      let page :=
        setHeader page
          (option_map (fun h => interpolatePageNumbers h current total') (Header page)) in
      let page :=
        setFooter page
          (option_map (fun f => interpolatePageNumbers f current total') (Footer page)) in
      page :: numberGroupFrom (S i) total rest
  end.

Definition numberGroup (group : list Page) : list Page :=
  numberGroupFrom 0 (List.length group) group.

(** [setPageNumbers]: the groups hold the pages of [doc.Pages] themselves,
    in order, so the pages of the document are the groups laid end to end. *)
Definition setPageNumbers (doc : Document) : Document :=
  mkDocument (DocWidget doc)
             (List.concat (List.map numberGroup (pageGroups (Pages doc)))).

(** *** Absolute coordinates *)

Fixpoint makeWidgetAbsolute (w : Widget) (parentX parentY : Q) : Widget :=
  let w1 := updCalc w (fun c =>
              Calc.setOuterY (Calc.setOuterX c (Calc.OuterX c + parentX))
                             (Calc.OuterY c + parentY)) in
  let w1 := adjustCalculatedPosition w1 in
  setChildren w1
    (List.map (fun child =>
                 makeWidgetAbsolute child (Calc.X (Calculated w1))
                                    (Calc.Y (Calculated w1)))
              (Children w)).

Definition makePageAbsolute (page : Page) : Page :=
  let pw := PageWidget page in
  let x := Calc.X (Calculated pw) in
  let y := Calc.Y (Calculated pw) in
  let header := option_map (fun h => makeWidgetAbsolute h 0 0) (Header page) in
  let pw := setChildren pw (List.map (fun w => makeWidgetAbsolute w x y) (Children pw)) in
  let footer :=
    option_map
      (fun f =>
         let bottom := Calc.OuterHeight (Calculated pw)
                       - Calc.OuterHeight (Calculated f) - 1 in
         makeWidgetAbsolute f 0 bottom)
      (Footer page) in
  mkPage pw header footer (ResetPageNumbers page).

Definition makeAbsolute (doc : Document) : Document :=
  mkDocument (DocWidget doc) (List.map makePageAbsolute (Pages doc)).

(** *** [setLayout] *)

Definition optRes {A : Type} (o : option A) : Res A :=
  match o with Some a => Ok a | None => Panic end.

Definition setLayout (l : Layouter) (fuel : nat) (doc : Document) : Res Document :=
  bindRes (optRes (initSizes l doc))
    (fun doc =>
       let doc := setPositions doc in
       bindRes (splitPages l fuel doc)
         (fun doc => Ok (makeAbsolute (setPageNumbers doc)))).

(** [SetLayout]: the measuring document starts at font size 7.7. *)
Definition SetLayout (fuel : nat) (document : Document)
    (fmt : option (string -> option Q)) (decode : string -> option (Z * Z))
  : Res Document :=
  setLayout (mkLayouter (mkPdfLibDoc (77 # 10)) fmt decode) fuel document.

End Pdf.
Import Pdf.

Local Open Scope string_scope.

(** * Specification vocabulary and sample inputs *)

(** ** Frame lemmas: what a pass writes besides [Calculated]: definitions *)

(** [calcOnly w w']: [w'] is [w] with another [Calculated]. *)
Definition calcOnly (w w' : Widget) : Prop := exists c, w' = setCalculated w c.

(** ** Text directly under a page: definitions *)

Fixpoint hasNonSpace (s : string) : bool :=
  match s with
  | EmptyString => false
  | String c r => negb (isSpace c) || hasNonSpace r
  end.

(** The layouter of [SetLayout] with no formatter and no image decoder. *)
Definition sampleLayouter : Layouter :=
  mkLayouter (mkPdfLibDoc (77 # 10)) None (fun _ => None).

(** An A4 page without children, header or footer. *)
Definition samplePage : Page :=
  mkPage (setHeight (setWidth (setType_ emptyWidget "page") 595) 842) None None false.

(** ** Numeric attributes: definitions *)

(** A stand-in for [strconv.ParseFloat] on three inputs, for the examples:
    like the library it returns 0 with the error for malformed text. *)
Definition sampleParseFloat (s : string) : Q * bool :=
  if String.eqb s "100" then (100, false)
  else if String.eqb s "12.5" then (25 # 2, false)
  else (0, true).

Definition sampleElement : Element :=
  mkElement "div" [("width", "abc"); ("height", ""); ("gap", "12.5")] [].

(** ** Text wrapping: definitions *)

(** A text widget of inner width 45 at font size 20 (9 per character). *)
Definition narrowText : Widget :=
  setCalculated
    (setValueLines (setValue (setType_ emptyWidget "div") "aaa bbb cc")
                   (Some ["aaa bbb cc"]))
    (Calc.mk 0 0 0 0 0 0 45 0 45 0 45 0 20 "roboto" 20 false None "column").

(** ** Page numbers: definitions *)

(** The widget at a path of child indices. *)
Fixpoint subAt (w : Widget) (path : list nat) : option Widget :=
  match path with
  | [] => Some w
  | i :: rest =>
      match List.nth_error (Children w) i with
      | Some child => subAt child rest
      | None => None
      end
  end.

(** The widget at a path none of whose proper ancestors holds text
    ([ValueLines] is [nil] all the way down to it). *)
Fixpoint reach (w : Widget) (path : list nat) : option Widget :=
  match path with
  | [] => Some w
  | i :: rest =>
      match ValueLines w with
      | Some _ => None
      | None =>
          match List.nth_error (Children w) i with
          | Some child => reach child rest
          | None => None
          end
      end
  end.

(** A subtree as interpolated for page [i] (0-based) of a group of [n]. *)
Definition numbered (i n : nat) (before after : Widget) : Prop :=
  forall path w,
    reach before path = Some w ->
    exists w', subAt after path = Some w'
               /\ ValueLines w'
                  = option_map (List.map (interpolateLine (sprintd (i + 1)) (sprintd n)))
                               (ValueLines w).

Definition numberedSlot (i n : nat) (before after : option Widget) : Prop :=
  match before with
  | Some h => exists h', after = Some h' /\ numbered i n h h'
  | None => after = None
  end.

Definition startsWithReset (g : list Page) : Prop :=
  match g with
  | p :: _ => ResetPageNumbers p = true
  | [] => True
  end.

Definition noResetInside (g : list Page) : Prop :=
  List.Forall (fun p => ResetPageNumbers p = false) (List.tl g).

(** A header with a text of its own and a child holding the placeholders. *)
Definition nestedHeader : Widget :=
  setChildren
    (setValueLines (setValue (setType_ emptyWidget "div") "Report") (Some ["Report"]))
    [setValueLines (setValue (setType_ emptyWidget "div") "{page} / {pages}")
                   (Some ["{page} / {pages}"])].

Definition nestedHeaderDoc : Document :=
  mkDocument (setType_ emptyWidget "document")
             [mkPage (PageWidget samplePage) (Some nestedHeader) None false].

(** A header without text of its own: the placeholders are reached. *)
Definition plainHeader : Widget :=
  setChildren (setType_ emptyWidget "div")
    [setValueLines (setValue (setType_ emptyWidget "div") "{page} / {pages}")
                   (Some ["{page} / {pages}"])].

Definition threePageDoc : Document :=
  mkDocument (setType_ emptyWidget "document")
             [mkPage (PageWidget samplePage) (Some plainHeader) None false;
              mkPage (PageWidget samplePage) (Some plainHeader) None false;
              mkPage (PageWidget samplePage) (Some plainHeader) None true].

(** ** Table carry-over: definitions *)

Definition carryOrZero (c : option Q) : Q :=
  match c with Some v => v | None => 0 end.

(** [carryChain l col c ts sums]: the clones [ts], in page order, carry
    from the incoming value [c]: each records the carry it receives, its
    column sum is the one of [sums], every clone but the last hands on the
    sum of both, and the last one hands on nothing. *)
Inductive carryChain (l : Layouter) (col : nat)
  : option Q -> list Widget -> list Q -> Prop :=
  | carryChain_last (c : option Q) (t : Widget) (s : Q) :
      CarryLast t = c ->
      getColumnSum l (Children t) col 0 = Some s ->
      CarryNext t = None ->
      carryChain l col c [t] [s]
  | carryChain_next (c : option Q) (t : Widget) (s : Q)
      (ts : list Widget) (ss : list Q) :
      CarryLast t = c ->
      getColumnSum l (Children t) col 0 = Some s ->
      CarryNext t = Some (carryOrZero c + s)%Q ->
      carryChain l col (Some (carryOrZero c + s)%Q) ts ss ->
      carryChain l col c (t :: ts) (s :: ss).

(** The same before the carry of the last clone is cleared. *)
Inductive carryOpen (l : Layouter) (col : nat)
  : option Q -> list Widget -> list Q -> Prop :=
  | carryOpen_last (c : option Q) (t : Widget) (s : Q) :
      CarryLast t = c ->
      getColumnSum l (Children t) col 0 = Some s ->
      CarryNext t = Some (carryOrZero c + s)%Q ->
      carryOpen l col c [t] [s]
  | carryOpen_next (c : option Q) (t : Widget) (s : Q)
      (ts : list Widget) (ss : list Q) :
      CarryLast t = c ->
      getColumnSum l (Children t) col 0 = Some s ->
      CarryNext t = Some (carryOrZero c + s)%Q ->
      carryOpen l col (Some (carryOrZero c + s)%Q) ts ss ->
      carryOpen l col c (t :: ts) (s :: ss).

Definition totalQ (xs : list Q) : Q := List.fold_right Qplus 0%Q xs.

(** *** Example inputs for the pagination properties *)

Fixpoint digitsValue (s : string) (acc : Z) : option Z :=
  match s with
  | EmptyString => Some acc
  | String c r =>
      let n := Z.of_nat (nat_of_ascii c) in
      if ((48 <=? n) && (n <=? 57))%Z then digitsValue r (acc * 10 + (n - 48))%Z
      else None
  end.

(** A [ParseNumber] for the examples: digits with an optional fraction. *)
Definition parseDecimal (s : string) : option Q :=
  match splitByte "."%char s with
  | [whole] =>
      if strEmpty whole then None
      else option_map inject_Z (digitsValue whole 0%Z)
  | [whole; frac] =>
      if strEmpty whole || strEmpty frac then None
      else
        match digitsValue whole 0%Z, digitsValue frac 0%Z with
        | Some a, Some b =>
            Some (Qred (inject_Z a
                        + inject_Z b / inject_Z (10 ^ Z.of_nat (String.length frac))))
        | _, _ => None
        end
  | _ => None
  end.

Definition carryLayouter : Layouter :=
  mkLayouter (mkPdfLibDoc (77 # 10)) (Some parseDecimal) (fun _ => None).

(** Widgets as the parser builds them. *)
Definition textCell (text : string) : Widget :=
  setValueLines
    (setValue (setDirection (setType_ emptyWidget "cell") "row") text)
    (Some (splitClean text "010"%char)).

Definition rowOf (cells : list Widget) : Widget :=
  setChildren (setDirection (setType_ emptyWidget "row") "row") cells.

(** [setAlternateColor(table)] of [ast.go], applied at parse time. *)
Fixpoint alternateAtParse (i : nat) (rows : list Widget) (alt : option Color)
  : list Widget :=
  match rows with
  | [] => []
  | row :: rest =>
      (if (0 <? i)%nat && Nat.even i
       then setChildren row
              (List.map (fun cell =>
                           match BackgroundColor cell with
                           | None => setBackgroundColor cell alt
                           | Some _ => cell
                           end) (Children row))
       else row) :: alternateAtParse (S i) rest alt
  end.

Definition tableOf (carryColumn : Z) (alt : option Color) (rows : list Widget) : Widget :=
  let rows := match alt with
              | Some _ => alternateAtParse 0 rows alt
              | None => rows
              end in
  setChildren
    (setAlternateColorField
       (setCarryColumn (setType_ emptyWidget "table") carryColumn) alt)
    rows.

Definition pageOf (height : Q) (children : list Widget) : Page :=
  mkPage (setChildren (setHeight (setWidth (setType_ emptyWidget "page") 595) height)
                      children)
         None None false.

(** A document with font size and line height 10. *)
Definition docOf (pages : list Page) : Document :=
  mkDocument
    (setLineHeight
       (setFontSize
          (setFontFamily (setHeight (setWidth (setType_ emptyWidget "document") 595) 842)
                         "roboto") 10) 10)
    pages.

(** The children of the pages of a laid-out document. *)
Definition placed (r : Res Document) : list (list Widget) :=
  match r with
  | Ok doc => List.map (fun p => Children (PageWidget p)) (Pages doc)
  | _ => []
  end.

(** The first child of the first page after sizing and positioning: the
    input of pagination. *)
Definition positioned (l : Layouter) (doc : Document) : Widget * Page :=
  match option_map setPositions (initSizes l doc) with
  | Some (mkDocument _ (page :: _)) =>
      (List.hd emptyWidget (Children (PageWidget page)), page)
  | _ => (emptyWidget, samplePage)
  end.

Definition splitResult (r : Res splitTableResult) : splitTableResult :=
  match r with
  | Ok x => x
  | _ => mkSplitTableResult [] false ExitNoFit
  end.

(** S6: four rows with the carry in column 2, two rows to a page. *)
Definition carryTable : Widget :=
  tableOf 2 None
    [rowOf [textCell "a"; textCell "1"; textCell "10.00"];
     rowOf [textCell "b"; textCell "2"; textCell "20.00"];
     rowOf [textCell "c"; textCell "3"; textCell "30.00"];
     rowOf [textCell "d"; textCell "4"; textCell "40.00"]].

Definition carryDoc : Document := docOf [pageOf 20 [carryTable]].

Definition carrySplit : splitTableResult :=
  splitResult
    (splitTable carryLayouter 10 (fst (positioned carryLayouter carryDoc)) 0
                (snd (positioned carryLayouter carryDoc))).

(** The column sum as the claim words it: the parse of the first value line
    of every cell that is not a header. *)
Fixpoint firstLineSum (parse : string -> option Q) (rows : list Widget) (column : nat)
  : Q :=
  match rows with
  | [] => 0
  | row :: rest =>
      (match List.nth_error (Children row) column with
       | Some cell =>
           if IsHeader cell then 0
           else match ValueLines cell with
                | Some (line :: _) => carryOrZero (parse line)
                | _ => 0
                end
       | None => 0
       end + firstLineSum parse rest column)%Q
  end.

(** A carry cell of two lines in the first of two clones. *)
Definition twoLineTable : Widget :=
  tableOf 0 None
    [rowOf [textCell "10
20"];
     rowOf [textCell "30"];
     rowOf [textCell "40"]].

Definition twoLineDoc : Document := docOf [pageOf 30 [twoLineTable]].

Definition twoLineSplit : splitTableResult :=
  splitResult
    (splitTable carryLayouter 10 (fst (positioned carryLayouter twoLineDoc)) 0
                (snd (positioned carryLayouter twoLineDoc))).

(** ** Alternate row colours: definitions *)

Definition grey : Color := mkColor 238 238 238.

(** Five rows; the fourth is taller than the page. *)
Definition bandedTable : Widget :=
  tableOf (-1) (Some grey)
    [rowOf [textCell "a"];
     rowOf [textCell "b"];
     rowOf [textCell "c"];
     rowOf [setHeight (textCell "d") 200];
     rowOf [textCell "e"]].

Definition bandedDoc : Document := docOf [pageOf 30 [bandedTable]].

(** The background of every cell, row by row. *)
Definition cellColors (t : Widget) : list (list (option Color)) :=
  List.map (fun row => List.map BackgroundColor (Children row)) (Children t).

(** Rows banded as the repair leaves them: from index [i], odd rows hold no
    background and even rows hold [alt] wherever [before] held none. *)
Fixpoint banded (i : nat) (alt : Color) (before after : list Widget) : Prop :=
  match before, after with
  | [], [] => True
  | b :: bs, a :: more =>
      List.map BackgroundColor (Children a)
      = List.map (fun cell =>
                    if Nat.even i
                    then match BackgroundColor cell with
                         | None => Some alt
                         | Some c => Some c
                         end
                    else None) (Children b)
      /\ banded (S i) alt bs more
  | _, _ => False
  end.

(** ** Page breaks: definitions *)










(** ** Width distribution in a row: definitions *)

Definition outerWidth (w : Widget) : Q := Calc.OuterWidth (Calculated w).
Definition innerWidth (w : Widget) : Q := Calc.InnerWidth (Calculated w).

(** A row-direction div of width 300 around [children], after style
    inheritance from the sample page. *)
Definition rowDiv (children : list Widget) : Widget :=
  initCalculatedInfo
    (setChildren (setDirection (setWidth (setType_ emptyWidget "div") 300) "row")
                 children)
    (Some (PageWidget samplePage)).

Definition widthDiv (width : Q) : Widget := setWidth (setType_ emptyWidget "div") width.

Definition textDiv (text : string) : Widget :=
  setValueLines (setValue (setType_ emptyWidget "div") text)
                (Some (splitClean text "010"%char)).

(** The outer widths of the children after the sizing pass. *)
Definition childWidths (r : option Widget) : list Q :=
  match r with
  | Some w => List.map (fun c => Qred (outerWidth c)) (Children w)
  | None => []
  end.

(** 96 characters: 332.64 wide at the measuring font size 7.7. *)
Definition longText : string :=
  "aaaaaaaaaaaaaaaaaaaaaaaaaaaaaaaaaaaaaaaaaaaaaaaa" ++
  "aaaaaaaaaaaaaaaaaaaaaaaaaaaaaaaaaaaaaaaaaaaaaaaa".

(** S3 at the entry of the width pass, and after it. *)
Definition s3Input : Widget :=
  initFixedSizes sampleLayouter (rowDiv [widthDiv 100; setType_ emptyWidget "div"]) 595.

Definition s3Output : Widget :=
  match initWidgetsWidth sampleLayouter s3Input 595 with
  | Some w => w
  | None => emptyWidget
  end.

(** ** Box relations after the sizing pass: definitions *)

Local Open Scope Q_scope.








(** [P] holds of a widget and of every widget below it. *)
Fixpoint ForallTree (P : Widget -> Prop) (w : Widget) : Prop :=
  P w /\ (fix all (cs : list Widget) : Prop :=
            match cs with
            | [] => True
            | c :: rest => ForallTree P c /\ all rest
            end) (Children w).


#[local] Unset Elimination Schemes.
#[local] Set Elimination Schemes.




Local Open Scope string_scope.

(** * Theorems *)

(** ** Frame lemmas: what a pass writes besides [Calculated] *)

Create HintDb calc.

Lemma calcOnly_refl (w : Widget) : calcOnly w w.
Proof. exists (Calculated w). destruct w; reflexivity. Qed.

Lemma calcOnly_trans (a b c : Widget) : calcOnly a b -> calcOnly b c -> calcOnly a c.
Proof. intros [x ->] [y ->]. exists y. reflexivity. Qed.

Lemma calcOnly_set (w : Widget) (c : Calc.t) : calcOnly w (setCalculated w c).
Proof. exists c. reflexivity. Qed.

Lemma calcOnly_updCalc (w : Widget) (f : Calc.t -> Calc.t) : calcOnly w (updCalc w f).
Proof. apply calcOnly_set. Qed.

Lemma calcOnly_if (b : bool) (w x y : Widget) :
  calcOnly w x -> calcOnly w y -> calcOnly w (if b then x else y).
Proof. destruct b; auto. Qed.

#[export] Hint Resolve calcOnly_refl calcOnly_set calcOnly_updCalc calcOnly_if : calc.

Lemma calcOnly_addjustCalculatedWidth w : calcOnly w (addjustCalculatedWidth w).
Proof. apply calcOnly_set. Qed.
Lemma calcOnly_addjustCalculatedHeight w : calcOnly w (addjustCalculatedHeight w).
Proof. apply calcOnly_set. Qed.
Lemma calcOnly_recalculateFromInnerHeight w : calcOnly w (recalculateFromInnerHeight w).
Proof. apply calcOnly_set. Qed.
Lemma calcOnly_recalculateFromOuterHeight w : calcOnly w (recalculateFromOuterHeight w).
Proof. apply calcOnly_set. Qed.
Lemma calcOnly_recalculateFromOuterWidth w : calcOnly w (recalculateFromOuterWidth w).
Proof. apply calcOnly_set. Qed.

#[export] Hint Resolve calcOnly_addjustCalculatedWidth calcOnly_addjustCalculatedHeight
  calcOnly_recalculateFromInnerHeight calcOnly_recalculateFromOuterHeight
  calcOnly_recalculateFromOuterWidth : calc.

Ltac calc_only :=
  repeat match goal with
         | |- calcOnly _ (if _ then _ else _) => apply calcOnly_if
         | |- calcOnly _ (match ?o with Some _ => _ | None => _ end) => destruct o
         | |- calcOnly ?w ?w => apply calcOnly_refl
         | |- calcOnly _ (setCalculated _ _) =>
             eapply calcOnly_trans; [|apply calcOnly_set]
         | |- calcOnly _ (updCalc _ _) =>
             eapply calcOnly_trans; [|apply calcOnly_updCalc]
         | |- calcOnly _ (addjustCalculatedWidth _) =>
             eapply calcOnly_trans; [|apply calcOnly_addjustCalculatedWidth]
         | |- calcOnly _ (addjustCalculatedHeight _) =>
             eapply calcOnly_trans; [|apply calcOnly_addjustCalculatedHeight]
         | |- calcOnly _ (recalculateFromInnerHeight _) =>
             eapply calcOnly_trans; [|apply calcOnly_recalculateFromInnerHeight]
         | |- calcOnly _ (recalculateFromOuterHeight _) =>
             eapply calcOnly_trans; [|apply calcOnly_recalculateFromOuterHeight]
         | |- calcOnly _ (recalculateFromOuterWidth _) =>
             eapply calcOnly_trans; [|apply calcOnly_recalculateFromOuterWidth]
         end.

Lemma calcOnly_initCalculatedInfoOwn w p : calcOnly w (initCalculatedInfoOwn w p).
Proof. unfold initCalculatedInfoOwn. calc_only. Qed.

Lemma calcOnly_initValueSize l w : calcOnly w (initValueSize l w).
Proof. unfold initValueSize. calc_only. Qed.

Lemma calcOnly_ownWidth w pw : calcOnly w (ownWidth w pw).
Proof. unfold ownWidth. calc_only. Qed.

Lemma calcOnly_fields (w w' : Widget) :
  calcOnly w w' ->
  Value w' = Value w /\ ValueLines w' = ValueLines w /\ Children w' = Children w
  /\ Type_ w' = Type_ w /\ Padding w' = Padding w /\ Margin w' = Margin w
  /\ Width w' = Width w /\ Height w' = Height w /\ Direction w' = Direction w
  /\ Gap w' = Gap w /\ Y w' = Y w /\ Wrap w' = Wrap w.
Proof. intros [c ->]. repeat split. Qed.

(** ** Colours *)

Lemma hexDigit_range (c : ascii) (d : Z) :
  hexDigit c = Some d -> (0 <= d < 16)%Z.
Proof.
  unfold hexDigit.
  set (n := Z.of_nat (nat_of_ascii c)).
  destruct ((48 <=? n) && (n <=? 57))%Z eqn:E1.
  - intros H; inversion H; subst. apply andb_true_iff in E1. destruct E1. lia.
  - destruct ((97 <=? n) && (n <=? 122))%Z eqn:E2.
    + destruct (n - 97 + 10 <? 16)%Z eqn:E3; [|discriminate].
      intros H; inversion H; subst. apply andb_true_iff in E2. destruct E2. lia.
    + destruct ((65 <=? n) && (n <=? 90))%Z eqn:E3; [|discriminate].
      destruct (n - 65 + 10 <? 16)%Z eqn:E4; [|discriminate].
      intros H; inversion H; subst. apply andb_true_iff in E3. destruct E3. lia.
Qed.

Lemma hexDigit_not_sign (c : ascii) (d : Z) :
  hexDigit c = Some d -> Ascii.eqb c "+" = false /\ Ascii.eqb c "-" = false.
Proof.
  intros H. split.
  - destruct (Ascii.eqb c "+") eqn:E; [|reflexivity].
    apply Ascii.eqb_eq in E. subst c. discriminate H.
  - destruct (Ascii.eqb c "-") eqn:E; [|reflexivity].
    apply Ascii.eqb_eq in E. subst c. discriminate H.
Qed.

Lemma parseHex_two_digits (a b : ascii) (x y : Z) :
  hexDigit a = Some x -> hexDigit b = Some y ->
  parseHex (String a (String b EmptyString)) = (16 * x + y)%Z.
Proof.
  intros Ha Hb.
  pose proof (hexDigit_range _ _ Ha) as Rx.
  pose proof (hexDigit_range _ _ Hb) as Ry.
  destruct (hexDigit_not_sign _ _ Ha) as [Hp Hm].
  unfold parseHex, ParseInt16_32. rewrite Hp, Hm. cbn [orb negb andb].
  unfold ParseUint16_32. cbn [parseUintLoop]. rewrite Ha.
  replace (maxUint64 / 16 + 1 <=? 0)%Z with false by reflexivity.
  replace (maxVal32 <? 0 * 16 + x)%Z with false
    by (symmetry; apply Z.ltb_ge; unfold maxVal32; lia).
  rewrite Hb.
  replace (maxUint64 / 16 + 1 <=? 0 * 16 + x)%Z with false
    by (symmetry; apply Z.leb_gt; unfold maxUint64; simpl; lia).
  replace (maxVal32 <? (0 * 16 + x) * 16 + y)%Z with false
    by (symmetry; apply Z.ltb_ge; unfold maxVal32; lia).
  cbn [snd fst andb isRangeError negb].
  change (2 ^ 31)%Z with 2147483648%Z.
  replace (2147483648 <=? (0 * 16 + x) * 16 + y)%Z with false
    by (symmetry; apply Z.leb_gt; lia).
  cbn [negb andb fst]. lia.
Qed.

Lemma parseColor_some_iff (v : string) :
  parseColor v <> None <->
  exists rest, v = String "#" rest /\ (String.length rest = 3%nat \/ String.length rest = 6%nat).
Proof.
  unfold parseColor, HasPrefix.
  destruct v as [|c r]; cbn [String.prefix negb].
  - split; [intros H; exfalso; apply H; reflexivity|intros (rest & H & _); discriminate].
  - destruct (Ascii.ascii_dec "#" c) as [E|E].
    + subst c. replace (String.prefix "" r) with true by (destruct r; reflexivity).
      cbn [negb dropBytes].
      split.
      * intros H. exists r. split; [reflexivity|].
        destruct (String.length r) as [|[|[|[|[|[|[|n]]]]]]]; try (exfalso; apply H; reflexivity); auto.
      * intros (rest & Hv & Hl). inversion Hv; subst rest.
        destruct Hl as [Hl|Hl]; rewrite Hl; discriminate.
    + split; [intros H; exfalso; apply H; reflexivity|].
      intros (rest & Hv & _). inversion Hv. congruence.
Qed.

Lemma parseColor_rgb (r g b : ascii) (x y z : Z) :
  hexDigit r = Some x -> hexDigit g = Some y -> hexDigit b = Some z ->
  parseColor (String "#" (String r (String g (String b EmptyString))))
  = Some (mkColor (17 * x) (17 * y) (17 * z)).
Proof.
  intros Hr Hg Hb. unfold parseColor. cbn [HasPrefix String.prefix negb dropBytes String.length].
  destruct (ascii_dec "#" "#") as [_|N]; [|congruence]. cbn [negb].
  unfold byteAt. cbn [String.get String.append].
  rewrite (parseHex_two_digits _ _ _ _ Hr Hr), (parseHex_two_digits _ _ _ _ Hg Hg),
    (parseHex_two_digits _ _ _ _ Hb Hb).
  f_equal. f_equal; lia.
Qed.

Lemma parseColor_rrggbb (r1 r2 g1 g2 b1 b2 : ascii) (x1 x2 y1 y2 z1 z2 : Z) :
  hexDigit r1 = Some x1 -> hexDigit r2 = Some x2 ->
  hexDigit g1 = Some y1 -> hexDigit g2 = Some y2 ->
  hexDigit b1 = Some z1 -> hexDigit b2 = Some z2 ->
  parseColor (String "#" (String r1 (String r2 (String g1 (String g2
              (String b1 (String b2 EmptyString)))))))
  = Some (mkColor (16 * x1 + x2) (16 * y1 + y2) (16 * z1 + z2)).
Proof.
  intros H1 H2 H3 H4 H5 H6. unfold parseColor.
  cbn [HasPrefix String.prefix negb dropBytes String.length].
  destruct (ascii_dec "#" "#") as [_|N]; [|congruence]. cbn [negb substring].
  rewrite (parseHex_two_digits _ _ _ _ H1 H2), (parseHex_two_digits _ _ _ _ H3 H4),
    (parseHex_two_digits _ _ _ _ H5 H6).
  reflexivity.
Qed.

(** C8 — [parseColor] yields a colour exactly for a ['#'] followed by three
    or six bytes, and is unset for every other string; on hexadecimal digits
    the colour is the one written: each digit of [#RGB] doubled
    ([17 * digit]), each pair of [#RRGGBB] read in base 16. *)
Theorem parseColor_forms :
  (forall v : string,
      parseColor v <> None <->
      exists rest, v = String "#" rest
                   /\ (String.length rest = 3%nat \/ String.length rest = 6%nat))
  /\ (forall (r g b : ascii) (x y z : Z),
         hexDigit r = Some x -> hexDigit g = Some y -> hexDigit b = Some z ->
         parseColor (String "#" (String r (String g (String b EmptyString))))
         = Some (mkColor (17 * x) (17 * y) (17 * z)))
  /\ (forall (r1 r2 g1 g2 b1 b2 : ascii) (x1 x2 y1 y2 z1 z2 : Z),
         hexDigit r1 = Some x1 -> hexDigit r2 = Some x2 ->
         hexDigit g1 = Some y1 -> hexDigit g2 = Some y2 ->
         hexDigit b1 = Some z1 -> hexDigit b2 = Some z2 ->
         parseColor (String "#" (String r1 (String r2 (String g1 (String g2
                     (String b1 (String b2 EmptyString)))))))
         = Some (mkColor (16 * x1 + x2) (16 * y1 + y2) (16 * z1 + z2))).
Proof.
  split; [exact parseColor_some_iff|].
  split; [exact parseColor_rgb|exact parseColor_rrggbb].
Qed.

Lemma parseColor_forms_witness :
  parseColor "#1aF" = Some (mkColor 17 170 255)
  /\ parseColor "#12aBcD" = Some (mkColor 18 171 205)
  /\ parseColor "12aBcD" = None.
Proof.
  destruct parseColor_forms as (Hiff & Hrgb & Hrrggbb).
  split; [|split].
  - exact (Hrgb "1"%char "a"%char "F"%char 1%Z 10%Z 15%Z eq_refl eq_refl eq_refl).
  - exact (Hrrggbb "1"%char "2"%char "a"%char "B"%char "c"%char "D"%char
                   1%Z 2%Z 10%Z 11%Z 12%Z 13%Z
                   eq_refl eq_refl eq_refl eq_refl eq_refl eq_refl).
  - destruct (parseColor "12aBcD") eqn:E; [|reflexivity].
    assert (H : parseColor "12aBcD" <> None) by (rewrite E; discriminate).
    apply Hiff in H. destruct H as (rest & Hv & _). discriminate Hv.
Defined.

(** ** Text directly under a page *)

Lemma trimLeft_nonSpace (s : string) :
  hasNonSpace s = true ->
  exists c r, trimLeft s = String c r /\ isSpace c = false.
Proof.
  induction s as [|c r IH]; cbn [hasNonSpace trimLeft]; [discriminate|].
  destruct (isSpace c) eqn:E; cbn [negb orb].
  - exact IH.
  - intros _. exists c, r. split; [reflexivity|exact E].
Qed.

Lemma trimLeft_allSpace (s : string) :
  hasNonSpace s = false -> trimLeft s = EmptyString.
Proof.
  induction s as [|c r IH]; cbn [hasNonSpace trimLeft]; [reflexivity|].
  destruct (isSpace c); cbn [negb orb]; [exact IH|discriminate].
Qed.

Lemma TrimSpace_nonEmpty (s : string) :
  strEmpty (TrimSpace s) = false <-> hasNonSpace s = true.
Proof.
  unfold TrimSpace. split.
  - intros H. destruct (hasNonSpace s) eqn:E; [reflexivity|].
    rewrite (trimLeft_allSpace _ E) in H. discriminate H.
  - intros H. destruct (trimLeft_nonSpace _ H) as (c & r & -> & Hc).
    cbn [trimRight]. rewrite Hc. reflexivity.
Qed.

Lemma splitByte_cons (sep : ascii) (s : string) :
  exists h t, splitByte sep s = h :: t.
Proof.
  destruct s as [|c r]; cbn [splitByte]; [eauto|].
  destruct (Ascii.eqb c sep); [eauto|].
  destruct (splitByte sep r); eauto.
Qed.

Lemma splitByte_nonSpace (s : string) :
  hasNonSpace s = true ->
  exists part, In part (splitByte "010"%char s) /\ hasNonSpace part = true.
Proof.
  induction s as [|c r IH]; cbn [hasNonSpace splitByte]; [discriminate|].
  intros H. destruct (Ascii.eqb c "010"%char) eqn:E.
  - apply Ascii.eqb_eq in E. subst c. cbn in H.
    destruct (IH H) as (part & Hin & Hp). exists part. split; [right; exact Hin|exact Hp].
  - destruct (splitByte_cons "010"%char r) as (h & t & Hs). rewrite Hs in *.
    destruct (negb (isSpace c)) eqn:Ec; cbn [orb] in H.
    + exists (String c h). split; [left; reflexivity|]. cbn [hasNonSpace]. rewrite Ec. reflexivity.
    + destruct (IH H) as (part & [Hin|Hin] & Hp).
      * subst part. exists (String c h). split; [left; reflexivity|].
        cbn [hasNonSpace]. rewrite Hp. apply orb_true_r.
      * exists part. split; [right; exact Hin|exact Hp].
Qed.

Lemma splitClean_nonEmpty (text : string) :
  strEmpty (TrimSpace text) = false -> splitClean text "010"%char <> [].
Proof.
  intros H. apply TrimSpace_nonEmpty in H.
  destruct (splitByte_nonSpace _ H) as (part & Hin & Hp).
  unfold splitClean. intros Hnil.
  assert (Hi : In (TrimSpace part)
                 (filter (fun p => negb (strEmpty p)) (map TrimSpace (splitByte "010"%char text)))).
  { apply filter_In. split.
    - apply in_map. exact Hin.
    - apply TrimSpace_nonEmpty in Hp. rewrite Hp. reflexivity. }
  rewrite Hnil in Hi. exact Hi.
Qed.

Lemma wrapText_empty_value (l : Layouter) (w : Widget) :
  Value w = EmptyString -> ValueLines (wrapText l w) = Some [].
Proof.
  intros Hv. unfold wrapText. rewrite Hv. cbn [strEmpty negb lenOpt List.length Nat.ltb Nat.leb].
  destruct (Wrap w); destruct (isZero (Height _)); reflexivity.
Qed.

Lemma reflowTexts_empty_value (l : Layouter) (w : Widget) (lines : list string) :
  Value w = EmptyString -> ValueLines w = Some lines ->
  ValueLines (reflowTexts l w) = Some [].
Proof.
  intros Hv Hl. destruct w; cbn [reflowTexts] in *. cbn [Pdf.ValueLines Pdf.Value] in *.
  subst. destruct lines as [|x t]; cbn [lenOpt List.length Nat.ltb Nat.leb].
  - reflexivity.
  - apply wrapText_empty_value. reflexivity.
Qed.


Lemma wrapText_shape (l : Layouter) (w : Widget) :
  exists vl, calcOnly (setValueLines w vl) (wrapText l w)
             /\ (Value w = EmptyString -> vl = Some []).
Proof.
  unfold wrapText.
  set (buf := if negb (strEmpty (Value w)) then _ else _).
  set (w1 := if Wrap w then _ else _).
  assert (H1 : exists vl, w1 = setValueLines w vl /\ (Value w = EmptyString -> vl = Some [])).
  { unfold w1. destruct (Wrap w).
    - destruct (0 <? lenOpt buf)%nat eqn:E.
      + eexists; split; [reflexivity|]. intros Hv. unfold buf in E. rewrite Hv in E. discriminate E.
      + eexists; split; [reflexivity|]. reflexivity.
    - exists buf. split; [reflexivity|]. intros Hv. unfold buf. rewrite Hv. reflexivity. }
  destruct H1 as (vl & H1 & H2). exists vl. split; [|exact H2].
  rewrite <- H1. calc_only.
Qed.


Lemma setChildren_same (w : Widget) : setChildren w (Children w) = w.
Proof. destruct w; reflexivity. Qed.

Lemma initFixedSizes_text (l : Layouter) (w : Widget) (pw : Q) (ls : list string) :
  Children w = [] -> Type_ w = "div" -> ValueLines w = Some ls ->
  initFixedSizes l w pw = initValueSize l w.
Proof.
  intros Hc Ht Hl. destruct w; cbn in Hc, Ht, Hl; subst.
  cbn [initFixedSizes Pdf.Type_ Pdf.ValueLines Pdf.Children List.map].
  change (isImageType "div") with false. change ("div" =? "table") with false.
  cbv iota.
  match goal with
  | |- _ = initValueSize l ?w0 => destruct (calcOnly_initValueSize l w0) as [c Hc]
  end.
  rewrite Hc. reflexivity.
Qed.

Lemma initWidgetsWidth_leaf (l : Layouter) (w : Widget) (pw : Q) :
  Children w = [] -> initWidgetsWidth l w pw = Some (ownWidth w pw).
Proof. intros Hc. destruct w; cbn in Hc; subst. reflexivity. Qed.

Lemma reflowTexts_leaf (l : Layouter) (w : Widget) :
  Children w = [] ->
  reflowTexts l w = if (0 <? lenOpt (ValueLines w))%nat then wrapText l w else w.
Proof.
  intros Hc. destruct w; cbn in Hc; subst. cbn [reflowTexts Pdf.ValueLines Pdf.Children List.map].
  match goal with |- context [(0 <? ?n)%nat] => destruct (0 <? n)%nat end; reflexivity.
Qed.

Lemma initWidgetsHeight_leaf (w : Widget) :
  Children w = [] -> Type_ w = "div" -> calcOnly w (initWidgetsHeight w).
Proof.
  intros Hc Ht. destruct w; cbn in Hc, Ht; subst.
  cbn [initWidgetsHeight Pdf.Children List.map].
  match goal with |- calcOnly ?w0 _ => change (setChildren w0 []) with w0 end.
  cbv zeta.
  match goal with
  | |- calcOnly ?w0 (if String.eqb (Type_ ?x) _ then _ else _) =>
      assert (Hx : calcOnly w0 x) by calc_only
  end.
  destruct Hx as [c Hx]. rewrite Hx. cbn [setCalculated Pdf.Type_].
  change ("div" =? "table") with false. cbv iota. exists c. reflexivity.
Qed.

Lemma pageText_laid_out (l : Layouter) (lines : list string) (opt : option Z)
    (parent : option Widget) (innerWidth : Q) :
  exists w', initWidgetSize l (initCalculatedInfo (textWidget lines opt) parent) innerWidth = Some w'
             /\ ValueLines w' = Some [] /\ Children w' = [].
Proof.
  unfold initWidgetSize.
  set (tw := textWidget lines opt).
  assert (F0 : Value tw = "" /\ ValueLines tw = Some lines /\ Children tw = [] /\ Type_ tw = "div")
    by (repeat split).
  destruct F0 as (V0 & L0 & C0 & T0).
  set (w0 := initCalculatedInfo tw parent).
  assert (H0 : calcOnly tw w0).
  { unfold w0. destruct (calcOnly_initCalculatedInfoOwn tw parent) as [c Hc].
    exists c. unfold tw in *. cbn [initCalculatedInfo textWidget Pdf.Children List.map].
    fold (textWidget lines opt). rewrite Hc. reflexivity. }
  destruct (calcOnly_fields _ _ H0) as (V1 & L1 & C1 & T1 & _).
  rewrite (initFixedSizes_text l w0 innerWidth lines) by congruence.
  pose proof (calcOnly_trans _ _ _ H0 (calcOnly_initValueSize l w0)) as H1.
  set (w1 := initValueSize l w0) in *.
  destruct (calcOnly_fields _ _ H1) as (V2 & L2 & C2 & T2 & _).
  rewrite (initWidgetsWidth_leaf l w1 innerWidth) by congruence.
  pose proof (calcOnly_trans _ _ _ H1 (calcOnly_ownWidth w1 innerWidth)) as H2.
  set (w2 := ownWidth w1 innerWidth) in *.
  destruct (calcOnly_fields _ _ H2) as (V3 & L3 & C3 & T3 & _).
  eexists. split; [reflexivity|].
  rewrite (reflowTexts_leaf l w2) by congruence.
  assert (H3 : exists w3, (if (0 <? lenOpt (ValueLines w2))%nat then wrapText l w2 else w2) = w3
                /\ ValueLines w3 = Some [] /\ Children w3 = [] /\ Type_ w3 = "div").
  { eexists. split; [reflexivity|].
    destruct (0 <? lenOpt (ValueLines w2))%nat eqn:E.
    - destruct (wrapText_shape l w2) as (vl & Hc & Hv).
      destruct (calcOnly_fields _ _ Hc) as (_ & L4 & C4 & T4 & _).
      rewrite L4, C4, T4.
      cbn [setValueLines Pdf.ValueLines Pdf.Children Pdf.Type_].
      rewrite (Hv V3). repeat split; congruence.
    - rewrite L3, L0 in E. destruct lines; [|discriminate E].
      repeat split; congruence. }
  destruct H3 as (w3 & -> & L4 & C4 & T4).
  destruct (calcOnly_fields _ _ (initWidgetsHeight_leaf w3 C4 T4)) as (_ & L5 & C5 & _).
  split; congruence.
Qed.

(** C9 — character data directly under a page becomes a [div] whose
    [ValueLines] are the cleaned lines (at least one) and whose [Value] is
    empty; wrapping a widget with an empty [Value] leaves it the empty list
    of lines; so after the sizing pass the text widget has no line left. *)
Theorem page_text_is_dropped
    (parseElement : Element -> Page -> string + (option Widget * Page))
    (l : Layouter) (text : string) (page : Page)
    (parent : option Widget) (innerWidth : Q) :
  strEmpty (TrimSpace text) = false ->
  exists w,
    parseToken parseElement (CharData text) page true = inr (Some w, page)
    /\ Value w = EmptyString
    /\ ValueLines w = Some (splitClean text "010"%char)
    /\ splitClean text "010"%char <> []
    /\ (forall w0, Value w0 = EmptyString -> ValueLines (wrapText l w0) = Some [])
    /\ exists w',
         initWidgetSize l (initCalculatedInfo w parent) innerWidth = Some w'
         /\ ValueLines w' = Some [] /\ Children w' = [].
Proof.
  intros Ht.
  exists (textWidget (splitClean text "010"%char) (Option_ (PageWidget page))).
  split; [cbn [parseToken]; rewrite Ht; reflexivity|].
  split; [reflexivity|]. split; [reflexivity|].
  split; [apply splitClean_nonEmpty; exact Ht|].
  split; [intros w0; apply wrapText_empty_value|].
  apply pageText_laid_out.
Qed.

Lemma page_text_is_dropped_witness :
  exists w,
    parseToken (fun _ p => inr (None, p)) (CharData "  Hello
  world ") samplePage true = inr (Some w, samplePage)
    /\ ValueLines w = Some ["Hello"; "world"]
    /\ exists w',
         initWidgetSize sampleLayouter (initCalculatedInfo w (Some (PageWidget samplePage)))
                        595 = Some w'
         /\ ValueLines w' = Some [].
Proof.
  destruct (page_text_is_dropped (fun _ p => inr (None, p)) sampleLayouter
              "  Hello
  world " samplePage (Some (PageWidget samplePage)) 595 eq_refl)
    as (w & Hp & _ & Hl & _ & _ & w' & Hs & Hv & _).
  exists w. split; [exact Hp|]. split; [exact Hl|].
  exists w'. split; [exact Hs|exact Hv].
Defined.

(** ** Numeric attributes *)

(** C10 — a numeric attribute takes its default only when the attribute is
    absent or empty; for any other text the value is whatever [ParseFloat]
    returns, its error dropped: 0 for malformed text (Go returns 0 with
    the syntax error), whatever the default is. *)
Theorem parseFloatAttr_malformed
    (ParseFloat : string -> Q * bool) (el : Element) (name : string)
    (defaultValue : Q) :
  (strEmpty (getAttrValue el name "") = true ->
   parseFloatAttr ParseFloat el name defaultValue = defaultValue)
  /\ (strEmpty (getAttrValue el name "") = false ->
      parseFloatAttr ParseFloat el name defaultValue
      = fst (ParseFloat (getAttrValue el name "")))
  /\ (strEmpty (getAttrValue el name "") = false ->
      ParseFloat (getAttrValue el name "") = (0, true) ->
      parseFloatAttr ParseFloat el name defaultValue = 0).
Proof.
  unfold parseFloatAttr, parseFloat.
  split; [|split].
  - intros ->. reflexivity.
  - intros ->. reflexivity.
  - intros -> ->. reflexivity.
Qed.

Lemma parseFloatAttr_malformed_witness :
  parseFloatAttr sampleParseFloat sampleElement "width" 595 = 0
  /\ parseFloatAttr sampleParseFloat sampleElement "height" 842 = 842
  /\ parseFloatAttr sampleParseFloat sampleElement "x" 7 = 7
  /\ parseFloatAttr sampleParseFloat sampleElement "gap" 0 = 25 # 2.
Proof.
  split; [|split; [|split]].
  - exact (proj2 (proj2 (parseFloatAttr_malformed sampleParseFloat sampleElement
                           "width" 595)) eq_refl eq_refl).
  - exact (proj1 (parseFloatAttr_malformed sampleParseFloat sampleElement
                    "height" 842) eq_refl).
  - exact (proj1 (parseFloatAttr_malformed sampleParseFloat sampleElement "x" 7)
                 eq_refl).
  - exact (proj1 (proj2 (parseFloatAttr_malformed sampleParseFloat sampleElement
                           "gap" 0)) eq_refl).
Defined.

(** ** Text wrapping *)

Lemma length_string_of_list_ascii (cs : list ascii) :
  String.length (string_of_list_ascii cs) = List.length cs.
Proof. induction cs as [|c cs IH]; cbn; [reflexivity|now rewrite IH]. Qed.

Lemma length_list_ascii_of_string (s : string) :
  List.length (list_ascii_of_string s) = String.length s.
Proof. induction s as [|c s IH]; cbn; [reflexivity|now rewrite IH]. Qed.

(** The word breaker ends: every round of [for len(remainingWord) > 0]
    removes at least one rune, so [len(word)] rounds are enough. *)
Lemma breakWord_total (l : Layouter) (fontSize availableWidth : Q) (fuel : nat) :
  forall (word : string) (lines : list string),
    (String.length word <= fuel)%nat ->
    exists out, breakWord l fontSize availableWidth fuel word lines = Some out.
Proof.
  induction fuel as [|fuel IH]; intros word lines Hlen.
  - destruct word; [|cbn in Hlen; lia]. cbn. eauto.
  - cbn [breakWord]. destruct (String.length word =? 0)%nat eqn:E; [eauto|].
    apply Nat.eqb_neq in E.
    destruct (0 <? List.length _)%nat eqn:Eb.
    + apply IH. rewrite length_string_of_list_ascii, List.length_skipn,
        length_list_ascii_of_string.
      apply Nat.ltb_lt in Eb. lia.
    + apply IH. rewrite length_string_of_list_ascii, List.length_skipn,
        length_list_ascii_of_string. lia.
Qed.

Lemma wordStep_total (l : Layouter) (fontSize availableWidth spaceWidth : Q)
    (st : WrapState) (word : string) :
  exists st', wordStep l fontSize availableWidth spaceWidth st word = Some st'.
Proof.
  destruct st as [[lines line] lineWidth]. cbn [wordStep].
  destruct (Qgtb _ availableWidth).
  - destruct (breakWord_total l fontSize availableWidth (String.length word) word
                (flushLine lines line) (le_n _)) as [out ->]. eauto.
  - destruct (Qgtb _ availableWidth); eauto.
Qed.

Lemma wordsLoop_total (l : Layouter) (fontSize availableWidth spaceWidth : Q)
    (words : list string) :
  forall st, exists st',
    wordsLoop l fontSize availableWidth spaceWidth words st = Some st'.
Proof.
  induction words as [|word rest IH]; intros st; cbn [wordsLoop]; [eauto|].
  destruct (wordStep_total l fontSize availableWidth spaceWidth st word) as [st' ->].
  apply IH.
Qed.

Lemma textLinesLoop_total (l : Layouter) (fontSize availableWidth spaceWidth : Q)
    (textLines : list string) :
  forall lines, exists out,
    textLinesLoop l fontSize availableWidth spaceWidth textLines lines = Some out.
Proof.
  induction textLines as [|textLine rest IH]; intros lines; cbn [textLinesLoop]; [eauto|].
  destruct (strEmpty (TrimSpace textLine)); [apply IH|].
  destruct (wordsLoop_total l fontSize availableWidth spaceWidth
              (Fields (TrimSpace textLine)) (lines, [], 0)) as [[[ls ln] lw] ->].
  apply IH.
Qed.

(** [splitLines] returns for every text, font size and width (zero and
    negative widths included). *)
Lemma splitLinesRun_total (l : Layouter) (text : string) (fontSize availableWidth : Q) :
  exists lines, splitLinesRun l text fontSize availableWidth = Some lines
                /\ splitLines l text fontSize availableWidth = lines.
Proof.
  unfold splitLines, splitLinesRun.
  destruct (textLinesLoop_total l fontSize availableWidth
              (measureTextWidth l fontSize " ") (splitByte "010"%char text) [])
    as [out ->].
  eauto.
Qed.

(** C5 — the defect: after a wrap the tracked width of the new line leaves
    out the space that follows its first word, so the next word is admitted
    one space too early.  At font size 20 (9 per character) and inner width
    45 the text "aaa bbb cc" wraps into "aaa" and "bbb cc"; the second line
    has six characters and measures 54. *)
Theorem wrapText_line_exceeds_width :
  ValueLines (wrapText sampleLayouter narrowText) = Some ["aaa"; "bbb cc"]
  /\ Calc.InnerWidth (Calculated narrowText) == 45
  /\ measureTextWidth sampleLayouter (Calc.FontSize (Calculated narrowText)) "bbb cc" == 54
  /\ String.length "bbb cc" = 6%nat.
Proof.
  split; [vm_compute; reflexivity|].
  split; [reflexivity|].
  split; [vm_compute; reflexivity|reflexivity].
Qed.

(** ** Page numbers *)

Lemma interpolatePageNumbers_eq (w : Widget) (page pages : string) :
  interpolatePageNumbers w page pages
  = match ValueLines w with
    | Some lines => setValueLines w (Some (List.map (interpolateLine page pages) lines))
    | None =>
        setChildren w
          (List.map (fun child => interpolatePageNumbers child page pages) (Children w))
    end.
Proof. destruct w; reflexivity. Qed.

Lemma interpolatePageNumbers_reach (page pages : string) (path : list nat) :
  forall h w,
    reach h path = Some w ->
    exists w', subAt (interpolatePageNumbers h page pages) path = Some w'
               /\ ValueLines w'
                  = option_map (List.map (interpolateLine page pages)) (ValueLines w).
Proof.
  induction path as [|i rest IH]; intros h w Hr.
  - cbn in Hr. inversion Hr; subst w. clear Hr.
    eexists. split; [reflexivity|].
    rewrite interpolatePageNumbers_eq. destruct (ValueLines h) eqn:E.
    + reflexivity.
    + cbn. rewrite E. reflexivity.
  - cbn [reach] in Hr. destruct (ValueLines h) eqn:E; [discriminate|].
    destruct (nth_error (Children h) i) as [child|] eqn:En; [|discriminate].
    destruct (IH child w Hr) as (w' & Hs & Hv).
    exists w'. split; [|exact Hv].
    rewrite interpolatePageNumbers_eq, E. cbn [subAt setChildren Pdf.Children].
    rewrite nth_error_map, En. cbn. exact Hs.
Qed.

Lemma numberGroupFrom_nth (total : nat) (g : list Page) :
  forall k i p,
    nth_error g i = Some p ->
    exists p', nth_error (numberGroupFrom k total g) i = Some p'
               /\ PageWidget p' = PageWidget p
               /\ ResetPageNumbers p' = ResetPageNumbers p
               /\ numberedSlot (k + i) total (Header p) (Header p')
               /\ numberedSlot (k + i) total (Footer p) (Footer p').
Proof.
  induction g as [|q rest IH]; intros k i p Hn.
  - destruct i; discriminate.
  - destruct i as [|i].
    + cbn in Hn. inversion Hn; subst q. clear Hn.
      cbn [numberGroupFrom nth_error]. eexists. split; [reflexivity|].
      rewrite Nat.add_0_r.
      split; [reflexivity|]. split; [reflexivity|].
      split.
      * cbn. destruct (Header p) as [h|]; cbn; [|reflexivity].
        eexists. split; [reflexivity|]. intros path w Hr.
        apply interpolatePageNumbers_reach. exact Hr.
      * cbn. destruct (Footer p) as [f|]; cbn; [|reflexivity].
        eexists. split; [reflexivity|]. intros path w Hr.
        apply interpolatePageNumbers_reach. exact Hr.
    + cbn [numberGroupFrom nth_error]. cbn in Hn.
      destruct (IH (S k) i p Hn) as (p' & H1 & H2 & H3 & H4 & H5).
      exists p'. replace (k + S i)%nat with (S k + i)%nat by lia. auto.
Qed.

Lemma tl_app_nonempty {A : Type} (xs ys : list A) :
  xs <> [] -> List.tl (xs ++ ys) = (List.tl xs ++ ys)%list.
Proof. destruct xs; [congruence|reflexivity]. Qed.

Lemma noResetInside_snoc (cur : list Page) (page : Page) :
  cur <> [] -> noResetInside cur -> ResetPageNumbers page = false ->
  noResetInside (cur ++ [page])%list.
Proof.
  unfold noResetInside. intros Hne Hc Hp.
  rewrite tl_app_nonempty by exact Hne.
  apply Forall_app. split; [exact Hc|]. constructor; [exact Hp|constructor].
Qed.

Lemma startsWithReset_snoc (cur : list Page) (page : Page) :
  cur <> [] -> startsWithReset cur -> startsWithReset (cur ++ [page])%list.
Proof. destruct cur; [congruence|auto]. Qed.

(** The grouping loop keeps the pages in order and closes a group exactly
    in front of a page that resets the numbering. *)
Lemma groupLoop_inv (pages : list Page) :
  forall (i : nat) (groups : list (list Page)) (cur : list Page),
    (i = 0%nat -> groups = [] /\ cur = []) ->
    ((0 < i)%nat -> cur <> []) ->
    List.Forall (fun g => g <> []) groups ->
    List.Forall startsWithReset (List.tl (groups ++ [cur])) ->
    List.Forall noResetInside (groups ++ [cur]) ->
    let r := groupLoop i pages groups cur in
    (List.concat (fst r) ++ snd r = List.concat groups ++ cur ++ pages)%list
    /\ List.Forall (fun g => g <> []) (fst r)
    /\ List.Forall startsWithReset (List.tl (fst r ++ [snd r]))
    /\ List.Forall noResetInside (fst r ++ [snd r])
    /\ (snd r = [] -> pages = [] /\ i = 0%nat).
Proof.
  induction pages as [|page rest IH]; intros i groups cur H0 Hpos Hne Hh Ht.
  - cbn. rewrite app_nil_r.
    split; [reflexivity|]. split; [exact Hne|]. split; [exact Hh|]. split; [exact Ht|].
    intros ->. split; [reflexivity|].
    destruct i; [reflexivity|]. exfalso. apply Hpos; [lia|reflexivity].
  - cbn [groupLoop].
    destruct (ResetPageNumbers page || (i =? 0)%nat) eqn:Ec.
    + destruct ((0 <? i)%nat && (0 <? List.length cur)%nat) eqn:Eg.
      * (* a group is closed in front of a resetting page *)
        apply andb_true_iff in Eg. destruct Eg as [Ei _].
        apply Nat.ltb_lt in Ei.
        assert (Hr : ResetPageNumbers page = true).
        { apply orb_true_iff in Ec. destruct Ec as [Ec|Ec]; [exact Ec|].
          apply Nat.eqb_eq in Ec. lia. }
        assert (Hcur : cur <> []) by (apply Hpos; exact Ei).
        unfold append. cbn [List.app].
        specialize (IH (S i) (groups ++ [cur])%list [page]).
        cbv zeta in IH |- *.
        destruct IH as (I1 & I2 & I3 & I4 & I5).
        -- intros; lia.
        -- intros _; discriminate.
        -- apply Forall_app. split; [exact Hne|]. constructor; [exact Hcur|constructor].
        -- rewrite tl_app_nonempty by (destruct groups; discriminate).
           apply Forall_app. split; [exact Hh|]. constructor; [exact Hr|constructor].
        -- apply Forall_app. split; [exact Ht|]. constructor; [|constructor].
           unfold noResetInside. cbn. constructor.
        -- split; [|split; [exact I2|split; [exact I3|split; [exact I4|]]]].
           ++ rewrite I1. rewrite concat_app. cbn. rewrite app_nil_r, <- !app_assoc.
              reflexivity.
           ++ intros E. destruct (I5 E). lia.
      * (* the first page: nothing to close *)
        assert (Hi : i = 0%nat \/ cur = []).
        { apply andb_false_iff in Eg. destruct Eg as [Eg|Eg].
          - left. apply Nat.ltb_ge in Eg. lia.
          - right. apply Nat.ltb_ge in Eg. destruct cur; [reflexivity|cbn in Eg; lia]. }
        assert (Hi0 : i = 0%nat).
        { destruct Hi as [Hi|Hi]; [exact Hi|].
          destruct i; [reflexivity|]. exfalso. apply Hpos; [lia|exact Hi]. }
        destruct (H0 Hi0) as [-> ->]. subst i.
        unfold append. cbn [List.app].
        specialize (IH 1%nat [] [page]). cbv zeta in IH |- *.
        destruct IH as (I1 & I2 & I3 & I4 & I5).
        -- intros; lia.
        -- intros _; discriminate.
        -- constructor.
        -- cbn. constructor.
        -- cbn. constructor; [|constructor]. unfold noResetInside. cbn. constructor.
        -- split; [exact I1|split; [exact I2|split; [exact I3|split; [exact I4|]]]].
           intros E. destruct (I5 E). lia.
    + (* the page joins the current group *)
      apply orb_false_iff in Ec. destruct Ec as [Hr Ei].
      apply Nat.eqb_neq in Ei.
      assert (Hcur : cur <> []) by (apply Hpos; lia).
      unfold append.
      specialize (IH (S i) groups (cur ++ [page])%list). cbv zeta in IH |- *.
      apply Forall_app in Ht. destruct Ht as [Ht1 Ht2].
      inversion Ht2 as [|? ? Hc _]; subst.
      destruct IH as (I1 & I2 & I3 & I4 & I5).
      * intros; lia.
      * intros _. destruct cur; discriminate.
      * exact Hne.
      * destruct groups as [|g0 gs].
        -- cbn. constructor.
        -- cbn [List.app List.tl] in Hh |- *.
           apply Forall_app in Hh. destruct Hh as [Hh1 Hh2].
           apply Forall_app. split; [exact Hh1|].
           inversion Hh2; subst. constructor; [|constructor].
           apply startsWithReset_snoc; assumption.
      * apply Forall_app. split; [exact Ht1|]. constructor; [|constructor].
        apply noResetInside_snoc; assumption.
      * split; [|split; [exact I2|split; [exact I3|split; [exact I4|]]]].
        -- rewrite I1. rewrite <- !app_assoc. reflexivity.
        -- intros E. destruct (I5 E). lia.
Qed.

Lemma pageGroups_spec (pages : list Page) :
  List.concat (pageGroups pages) = pages
  /\ List.Forall (fun g => g <> []) (pageGroups pages)
  /\ List.Forall startsWithReset (List.tl (pageGroups pages))
  /\ List.Forall noResetInside (pageGroups pages).
Proof.
  unfold pageGroups.
  pose proof (groupLoop_inv pages 0 [] []) as H. cbv zeta in H.
  destruct H as (I1 & I2 & I3 & I4 & I5).
  - auto.
  - intros; lia.
  - constructor.
  - cbn. constructor.
  - cbn. constructor; [|constructor]. unfold noResetInside. cbn. constructor.
  - destruct (groupLoop 0 pages [] []) as [groups cur]. cbn [fst snd] in *.
    destruct cur as [|p cur'].
    + cbn [List.length Nat.ltb Nat.leb]. destruct (I5 eq_refl) as [-> _].
      rewrite app_nil_r in I1. cbn in I1.
      split; [exact I1|]. split; [exact I2|].
      apply Forall_app in I4. destruct I4 as [I4 _].
      split; [|exact I4].
      destruct groups as [|g0 gs]; [constructor|].
      cbn [List.app List.tl] in I3. apply Forall_app in I3. apply I3.
    + cbn [List.length Nat.ltb Nat.leb]. unfold append.
      split; [|split; [|split]].
      * rewrite concat_app. cbn. rewrite app_nil_r. exact I1.
      * apply Forall_app. split; [exact I2|]. constructor; [discriminate|constructor].
      * exact I3.
      * exact I4.
Qed.

(** C6 (as the code has it) — the output pages are cut into consecutive,
    non-empty groups; every group but the first starts with a page whose
    [ResetPageNumbers] is set and no other page has it set; on page [i]
    (0-based) of a group of [n] pages, every widget of the header and of the
    footer that is reached without passing a text-bearing widget has each of
    its lines rewritten with [{page}] as [i + 1] and [{pages}] as [n]. *)
Theorem setPageNumbers_groups (doc : Document) :
  let groups := pageGroups (Pages doc) in
  List.concat groups = Pages doc
  /\ List.Forall (fun g => g <> []) groups
  /\ List.Forall startsWithReset (List.tl groups)
  /\ List.Forall noResetInside groups
  /\ Pages (setPageNumbers doc) = List.concat (List.map numberGroup groups)
  /\ forall g i p,
       List.In g groups -> List.nth_error g i = Some p ->
       exists p',
         List.nth_error (numberGroup g) i = Some p'
         /\ PageWidget p' = PageWidget p
         /\ numberedSlot i (List.length g) (Header p) (Header p')
         /\ numberedSlot i (List.length g) (Footer p) (Footer p').
Proof.
  cbv zeta.
  destruct (pageGroups_spec (Pages doc)) as (G1 & G2 & G3 & G4).
  split; [exact G1|]. split; [exact G2|]. split; [exact G3|]. split; [exact G4|].
  split; [reflexivity|].
  intros g i p _ Hn. unfold numberGroup.
  destruct (numberGroupFrom_nth (List.length g) g 0 i p Hn) as (p' & H1 & H2 & _ & H4 & H5).
  exists p'. auto.
Qed.

Lemma setPageNumbers_groups_witness :
  pageGroups (Pages threePageDoc)
  = [firstn 2 (Pages threePageDoc); skipn 2 (Pages threePageDoc)]
  /\ exists p',
       List.nth_error (numberGroup (firstn 2 (Pages threePageDoc))) 1 = Some p'
       /\ numberedSlot 1 2 (Some plainHeader) (Header p').
Proof.
  split; [reflexivity|].
  destruct (proj2 (proj2 (proj2 (proj2 (proj2 (setPageNumbers_groups threePageDoc)))))
              (firstn 2 (Pages threePageDoc)) 1%nat
              (mkPage (PageWidget samplePage) (Some plainHeader) None false)
              (or_introl eq_refl) eq_refl)
    as (p' & H1 & _ & H3 & _).
  exists p'. split; [exact H1|exact H3].
Defined.

(** C6 as stated fails: a placeholder below a header that has a text of its
    own is left as written, where the claim wants "1 / 1". *)
Lemma nested_header_keeps_placeholders :
  exists p' h' c',
    Pages (setPageNumbers nestedHeaderDoc) = [p']
    /\ Header p' = Some h'
    /\ subAt h' [0%nat] = Some c'
    /\ ValueLines c' = Some ["{page} / {pages}"]
    /\ interpolateLine (sprintd 1) (sprintd 1) "{page} / {pages}" = "1 / 1".
Proof.
  do 3 eexists.
  split; [reflexivity|]. split; [reflexivity|]. split; [reflexivity|].
  split; reflexivity.
Qed.

(** ** Table carry-over *)

(** The loop, when it ends with no row left, returns the clones completed
    before followed by a chain that starts from the carry it was given. *)
Lemma splitTableLoop_carry (l : Layouter) (table : Widget)
    (headerRow : option Widget) (innerHeight : Q) (fuel : nat) :
  (0 <= CarryColumn table)%Z ->
  forall rows currentTable currentY pageIndex carryLast pageBreak done r,
    splitTableLoop l fuel table headerRow innerHeight rows currentTable currentY
                   pageIndex carryLast pageBreak done = Ok r ->
    loopExit r = ExitDone ->
    exists ts ss,
      tables r = (done ++ ts)%list
      /\ carryOpen l (Z.to_nat (CarryColumn table)) carryLast ts ss.
Proof.
  intros Hcol. induction fuel as [|fuel IH];
    intros rows currentTable currentY pageIndex carryLast pageBreak done r Hrun Hexit.
  - discriminate Hrun.
  - cbn [splitTableLoop] in Hrun.
    destruct (fitIndex currentY innerHeight rows =? 0)%nat eqn:Efit.
    + inversion Hrun; subst r. discriminate Hexit.
    + apply Z.leb_le in Hcol. rewrite Hcol in Hrun.
      set (currentRows := setAlternateColor _ _) in Hrun.
      destruct (getColumnSum l currentRows (Z.to_nat (CarryColumn table)) 0) as [sum|] eqn:Es;
        [|discriminate Hrun].
      destruct (List.length _ =? 0)%nat eqn:Elen.
      * inversion Hrun; subst r. cbn [tables].
        eexists [_], [sum]. split; [reflexivity|].
        apply carryOpen_last; [reflexivity|exact Es|reflexivity].
      * apply Z.leb_le in Hcol.
        apply IH in Hrun; [|exact Hexit].
        destruct Hrun as (ts & ss & Ht & Hc).
        unfold append in Ht. rewrite <- app_assoc in Ht. cbn [List.app] in Ht.
        eexists (_ :: ts), (sum :: ss). split; [exact Ht|].
        apply carryOpen_next; [reflexivity|exact Es|reflexivity|exact Hc].
Qed.

Lemma clearCarryNext_cons (t : Widget) (ts : list Widget) :
  ts <> [] -> clearCarryNext (t :: ts) = t :: clearCarryNext ts.
Proof.
  intros Hne. unfold clearCarryNext. cbn [List.rev].
  destruct (List.rev ts) as [|x before] eqn:E.
  - apply (f_equal (@List.rev Widget)) in E. rewrite rev_involutive in E. contradiction.
  - cbn [List.app List.rev]. rewrite rev_app_distr. reflexivity.
Qed.

Lemma carryOpen_nonempty (l : Layouter) (col : nat) (c : option Q)
    (ts : list Widget) (ss : list Q) :
  carryOpen l col c ts ss -> ts <> [].
Proof. intros H; inversion H; discriminate. Qed.

Lemma carryOpen_cleared (l : Layouter) (col : nat) (c : option Q)
    (ts : list Widget) (ss : list Q) :
  carryOpen l col c ts ss -> carryChain l col c (clearCarryNext ts) ss.
Proof.
  induction 1 as [c t s H1 H2 H3|c t s ts ss H1 H2 H3 H4 IH].
  - apply carryChain_last; [exact H1|exact H2|reflexivity].
  - rewrite clearCarryNext_cons by (eapply carryOpen_nonempty; exact H4).
    apply carryChain_next; assumption.
Qed.

(** Along a chain the carry received by the last clone plus its own column
    sum is the incoming carry plus the sum over all clones. *)
Lemma carryChain_total (l : Layouter) (col : nat) (c : option Q)
    (ts : list Widget) (ss : list Q) :
  carryChain l col c ts ss ->
  CarryNext (List.last ts emptyWidget) = None
  /\ (carryOrZero (CarryLast (List.last ts emptyWidget)) + List.last ss 0
      == carryOrZero c + totalQ ss)%Q.
Proof.
  induction 1 as [c t s H1 H2 H3|c t s ts ss H1 H2 H3 H4 [IH1 IH2]].
  - cbn. split; [exact H3|]. rewrite H1. lra.
  - assert (Hts : ts <> []) by (inversion H4; discriminate).
    assert (Hss : ss <> []) by (inversion H4; discriminate).
    destruct ts as [|t' ts']; [contradiction|].
    destruct ss as [|s' ss']; [contradiction|].
    change (List.last (t :: t' :: ts') emptyWidget) with (List.last (t' :: ts') emptyWidget).
    change (List.last (s :: s' :: ss') 0%Q) with (List.last (s' :: ss') 0%Q).
    split; [exact IH1|]. rewrite IH2. cbn [carryOrZero totalQ List.fold_right]. lra.
Qed.

(** C3 (as the code has it) — when the split of a table with a carry column
    ends with no row left, the clones in page order form a chain: the first
    receives no carry, every later one receives what the previous one hands
    on, every clone but the last hands on the carry it received (0 when
    unset) plus its column sum as [getColumnSum] computes it, and the last
    hands on nothing; so the carry received by the last clone plus its own
    column sum is the sum over all clones. *)
Theorem splitTable_carry_chain (l : Layouter) (fuel : nat) (w : Widget)
    (currentY : Q) (page : Page) (r : splitTableResult) :
  (0 <= CarryColumn w)%Z ->
  splitTable l fuel w currentY page = Ok r ->
  loopExit r = ExitDone ->
  exists sums,
    carryChain l (Z.to_nat (CarryColumn w)) None (tables r) sums
    /\ CarryNext (lastTable r) = None
    /\ (carryOrZero (CarryLast (lastTable r)) + List.last sums 0 == totalQ sums)%Q.
Proof.
  intros Hcol Hrun Hexit. unfold splitTable in Hrun.
  destruct (if (0 <? List.length (Columns w))%nat then _ else _) as [headerRow|];
    [|discriminate Hrun].
  destruct (splitTableLoop _ _ _ _ _ _ _ _ _ _ _ _) as [r0| |] eqn:Eloop;
    try discriminate Hrun.
  cbn [bindRes] in Hrun. inversion Hrun; subst r. clear Hrun. cbn [loopExit] in Hexit.
  apply splitTableLoop_carry in Eloop; [|exact Hcol|exact Hexit].
  destruct Eloop as (ts & ss & Ht & Hc). cbn [List.app] in Ht.
  unfold lastTable. cbn [tables]. rewrite Ht.
  apply carryOpen_cleared in Hc.
  exists ss. split; [exact Hc|].
  destruct (carryChain_total _ _ _ _ _ Hc) as [T1 T2].
  split; [exact T1|]. rewrite T2. cbn [carryOrZero]. lra.
Qed.

Lemma splitTable_carry_chain_witness :
  List.map (fun t => (CarryLast t, CarryNext t)) (tables carrySplit)
  = [(None, Some 30%Q); (Some 30%Q, None)]
  /\ exists sums,
       carryChain carryLayouter 2 None (tables carrySplit) sums
       /\ (carryOrZero (CarryLast (lastTable carrySplit)) + List.last sums 0
           == totalQ sums)%Q.
Proof.
  split; [vm_compute; reflexivity|].
  destruct (splitTable_carry_chain carryLayouter 10
              (fst (positioned carryLayouter carryDoc)) 0
              (snd (positioned carryLayouter carryDoc)) carrySplit)
    as (sums & H1 & _ & H3).
  - vm_compute. discriminate.
  - vm_compute. reflexivity.
  - vm_compute. reflexivity.
  - exists sums. split; [exact H1|exact H3].
Defined.

(** C3 as stated fails: the first of the two clones holds a carry cell of
    two lines, "10" and "20", and a cell "30"; it hands on 30, where the
    parse of the first line of every cell gives 10 + 30. *)
Lemma two_line_cell_not_carried :
  List.map (fun t => (CarryLast t, CarryNext t, List.length (Children t)))
           (tables twoLineSplit)
  = [(None, Some 30%Q, 2%nat); (Some 30%Q, None, 1%nat)]
  /\ (firstLineSum parseDecimal (Children (List.hd emptyWidget (tables twoLineSplit))) 0
      == 40)%Q.
Proof. split; vm_compute; reflexivity. Qed.

(** ** Alternate row colours *)

Lemma alternateFrom_banded (alt : Color) (rows : list Widget) :
  forall i, banded i alt rows (alternateFrom i rows (Some alt)).
Proof.
  induction rows as [|row rest IH]; intros i; cbn [alternateFrom banded]; [exact I|].
  split; [|apply IH].
  unfold setCellsBackground. cbn [Pdf.Children setChildren].
  rewrite List.map_map. apply List.map_ext. intros cell.
  destruct (Nat.even i); [|reflexivity].
  destruct (BackgroundColor cell) eqn:E; [exact E|reflexivity].
Qed.

(** The repair of [setAlternateColor] on the rows it is given: row 0 is left
    alone; below it the rows of odd index lose every background and the rows
    of even index take the alternate colour where they had none. *)
Lemma setAlternateColor_bands (alt : Color) (row0 : Widget) (rows : list Widget) :
  exists rows',
    setAlternateColor (row0 :: rows) (Some alt) = row0 :: rows'
    /\ banded 1 alt rows rows'.
Proof.
  eexists. split; [reflexivity|]. apply alternateFrom_banded.
Qed.

(** C7 — the defect: the split ends on the second page because the row "d"
    does not fit; the clone placed there is never repaired, so its row 1
    ("e", row 4 of the table) keeps the alternate colour it got at parse
    time. *)
Theorem unrepaired_clone_keeps_bands :
  List.map (List.map cellColors) (placed (setLayout sampleLayouter 10 bandedDoc))
  = [[[[None]; [None]; [Some grey]]];
     [[[None]; [Some grey]]]].
Proof. vm_compute. reflexivity. Qed.

(** ** Page breaks *)








(** ** Width distribution in a row *)

Lemma mapM_nth {A B : Type} (f : A -> option B) (xs : list A) :
  forall ys,
    mapM f xs = Some ys ->
    List.length ys = List.length xs
    /\ forall i x, List.nth_error xs i = Some x ->
                   exists y, List.nth_error ys i = Some y /\ f x = Some y.
Proof.
  induction xs as [|x0 xs IH]; intros ys H; cbn [mapM] in H.
  - inversion H; subst. split; [reflexivity|]. intros [|i] x Hx; discriminate Hx.
  - destruct (f x0) as [y0|] eqn:E0; [|discriminate H].
    fold (mapM f) in H.
    destruct (mapM f xs) as [ys0|] eqn:E1; [|discriminate H].
    inversion H; subst ys. destruct (IH ys0 eq_refl) as [L N].
    split; [cbn; now rewrite L|].
    intros [|i] x Hx; cbn in Hx |- *.
    + inversion Hx; subst. eauto.
    + apply N. exact Hx.
Qed.

Lemma adjustColumns_calc (l : Layouter) (t t' : Widget) :
  adjustColumns l t = Some t' ->
  Calculated t' = Calculated t
  /\ List.map Calculated (Children t') = List.map Calculated (Children t).
Proof.
  unfold adjustColumns. destruct (Children t) as [|row rows] eqn:Ec.
  - intros H; inversion H; subst. rewrite Ec. auto.
  - destruct (allColumnMaxima _ _) as [sizes|]; [|discriminate].
    destruct (Qeq_bool _ 1).
    + intros H; inversion H; subst. rewrite Ec. auto.
    + destruct (mapM _ (row :: rows)) as [rows'|] eqn:Em; [|discriminate].
      intros H; inversion H; subst. split; [reflexivity|].
      cbn [Pdf.Children setChildren].
      destruct (mapM_nth _ _ _ Em) as [L N].
      apply List.nth_error_ext. intros i.
      rewrite !List.nth_error_map.
      destruct (List.nth_error (row :: rows) i) as [x|] eqn:Ex.
      * destruct (N i x Ex) as (y & Hy & Hf). rewrite Hy. cbn.
        destruct (resizeCells l (Children x) _); [|discriminate Hf].
        inversion Hf; subst. reflexivity.
      * apply List.nth_error_None in Ex. rewrite <- L in Ex.
        apply List.nth_error_None in Ex. rewrite Ex. reflexivity.
Qed.

Lemma initWidgetsWidth_eq (l : Layouter) (w : Widget) (parentWidth : Q) :
  initWidgetsWidth l w parentWidth
  = let w1 := ownWidth w parentWidth in
    match Children w with
    | [] => Some w1
    | _ =>
        let innerWidth := Calc.InnerWidth (Calculated w1) in
        let children : option (list Widget) :=
          if String.eqb (Direction w1) "row" then
            if Qltb (rowSumWidth w1) innerWidth then
              if (0 <? List.length (autoItems w1))%nat then
                let itemWidth := autoItemWidth w1 innerWidth in
                mapM (fun child =>
                        if isZero (Width child)
                        then initWidgetsWidth l child itemWidth
                        else Some child) (Children w)
              else Some (Children w)
            else
              let itemWidth := equalItemWidth w1 innerWidth in
              mapM (fun child => initWidgetsWidth l child itemWidth) (Children w)
          else
            mapM (fun child => initWidgetsWidth l child innerWidth) (Children w) in
        match children with
        | None => None
        | Some children =>
            let w2 := setChildren w1 children in
            if String.eqb (Type_ w2) "table" then adjustColumns l w2 else Some w2
        end
    end.
Proof. destruct w; reflexivity. Qed.

(** The widget's own metrics after [initWidgetsWidth] are those of its first
    statement: neither its children nor [adjustColumns] change them. *)
Lemma initWidgetsWidth_calc (l : Layouter) (w w' : Widget) (parentWidth : Q) :
  initWidgetsWidth l w parentWidth = Some w' ->
  Calculated w' = Calculated (ownWidth w parentWidth).
Proof.
  rewrite initWidgetsWidth_eq. cbv zeta.
  destruct (Children w) as [|c cs].
  - intros H; inversion H; reflexivity.
  - destruct (if String.eqb (Direction (ownWidth w parentWidth)) "row" then _ else _)
      as [children|]; [|discriminate].
    destruct (String.eqb _ "table").
    + intros H. apply adjustColumns_calc in H. destruct H as [H _]. exact H.
    + intros H; inversion H; reflexivity.
Qed.

Lemma ownWidth_auto (w : Widget) (parentWidth : Q) :
  isZero (Width w) = true -> outerWidth (ownWidth w parentWidth) = parentWidth.
Proof.
  intros H. unfold ownWidth, outerWidth. rewrite H.
  unfold recalculateFromOuterWidth, updCalc. cbn.
  destruct (Margin w), (Padding w); cbn;
    repeat match goal with |- context [if ?c then _ else _] => destruct c end;
    reflexivity.
Qed.

Lemma ownWidth_declared (w : Widget) (parentWidth : Q) :
  isZero (Width w) = false ->
  (Qgtb (outerWidth w) parentWidth = true ->
   outerWidth (ownWidth w parentWidth) = parentWidth)
  /\ (Qgtb (outerWidth w) parentWidth = false ->
      ownWidth w parentWidth = addjustCalculatedWidth w).
Proof.
  intros H. unfold ownWidth, outerWidth. rewrite H. split; intros ->; [|reflexivity].
  unfold recalculateFromOuterWidth, updCalc. cbn.
  destruct (Margin w), (Padding w); cbn;
    repeat match goal with |- context [if ?c then _ else _] => destruct c end;
    reflexivity.
Qed.

Lemma fold_left_minus (f : Widget -> Q) (xs : list Widget) :
  forall acc,
    (List.fold_left (fun remaining item => remaining - f item) xs acc
     == acc - totalQ (List.map f xs))%Q.
Proof.
  induction xs as [|x xs IH]; intros acc; cbn [List.fold_left List.map totalQ List.fold_right].
  - lra.
  - rewrite IH. fold (totalQ (List.map f xs)). lra.
Qed.

Lemma fold_left_plus (f : Widget -> Q) (xs : list Widget) :
  forall acc,
    (List.fold_left (fun sumWidth child => sumWidth + f child) xs acc
     == acc + totalQ (List.map f xs))%Q.
Proof.
  induction xs as [|x xs IH]; intros acc; cbn [List.fold_left List.map totalQ List.fold_right].
  - lra.
  - rewrite IH. fold (totalQ (List.map f xs)). lra.
Qed.

(** The two quantities of the row branch in closed form. *)
Lemma row_quantities (w : Widget) (inner : Q) :
  (rowSumWidth w
   == totalQ (List.map outerWidth (Children w))
      + (if Qgtb (rowGap w) 0 then rowGap w else 0))%Q
  /\ (autoItemWidth w inner
      == (inner - totalQ (List.map outerWidth (fixedItems w)) - rowGap w)
         / ofNat (List.length (autoItems w)))%Q
  /\ (equalItemWidth w inner
      == (inner - rowGap w) / ofNat (List.length (Children w)))%Q.
Proof.
  split; [|split].
  - unfold rowSumWidth.
    pose proof (fold_left_plus outerWidth (Children w) 0) as H. unfold outerWidth in *.
    destruct (Qgtb (rowGap w) 0); rewrite H; lra.
  - unfold autoItemWidth.
    pose proof (fold_left_minus outerWidth (fixedItems w) inner) as H.
    unfold outerWidth in *. rewrite H. reflexivity.
  - reflexivity.
Qed.

(** C2 (as the code has it) — in a row the threshold is the sum of the
    current outer widths of all children (the intrinsic text width of an
    auto child included) plus the gaps.  Below the inner width, every auto
    child gets the share of what the declared children and the gaps leave,
    and the declared children are left alone; otherwise every child is
    offered the equal share: an auto child and a declared child wider than
    the share take it, a declared child not wider keeps its own width. *)
Theorem row_width_distribution (l : Layouter) (w w' : Widget) (parentWidth : Q) :
  Direction w = "row" ->
  Children w <> [] ->
  initWidgetsWidth l w parentWidth = Some w' ->
  let w1 := ownWidth w parentWidth in
  let inner := innerWidth w1 in
  List.length (Children w') = List.length (Children w)
  /\ (forall i child child',
        List.nth_error (Children w) i = Some child ->
        List.nth_error (Children w') i = Some child' ->
        if Qltb (rowSumWidth w1) inner then
          if isZero (Width child)
          then outerWidth child' = autoItemWidth w1 inner
          else Calculated child' = Calculated child
        else
          if isZero (Width child) || Qgtb (outerWidth child) (equalItemWidth w1 inner)
          then outerWidth child' = equalItemWidth w1 inner
          else Calculated child' = Calculated (addjustCalculatedWidth child))
  /\ (rowSumWidth w1
      == totalQ (List.map outerWidth (Children w))
         + (if Qgtb (rowGap w) 0 then rowGap w else 0))%Q
  /\ (autoItemWidth w1 inner
      == (inner - totalQ (List.map outerWidth (fixedItems w)) - rowGap w)
         / ofNat (List.length (autoItems w)))%Q
  /\ (equalItemWidth w1 inner
      == (inner - rowGap w) / ofNat (List.length (Children w)))%Q
  /\ childWidths (initWidgetSize sampleLayouter
                    (rowDiv [widthDiv 100; setType_ emptyWidget "div"]) 595)
     = [100; 200].
Proof.
  intros Hdir Hne Hrun w1 inner. subst inner. unfold innerWidth.
  rewrite initWidgetsWidth_eq in Hrun. cbv zeta in Hrun. fold w1 in Hrun.
  set (inner := Calc.InnerWidth (Calculated w1)) in *.
  assert (Hframe : Children w1 = Children w /\ Direction w1 = Direction w
                   /\ Gap w1 = Gap w /\ Type_ w1 = Type_ w).
  { destruct (calcOnly_fields _ _ (calcOnly_ownWidth w parentWidth))
      as (_ & _ & F3 & F4 & _ & _ & _ & _ & F9 & F10 & _). auto. }
  destruct Hframe as (Fc & Fd & Fg & Ft).
  assert (Hq : rowGap w1 = rowGap w /\ fixedItems w1 = fixedItems w
               /\ autoItems w1 = autoItems w).
  { unfold rowGap, fixedItems, autoItems. rewrite Fc, Fg. auto. }
  destruct Hq as (Qg & Qf & Qa).
  destruct (row_quantities w1 inner) as (R1 & R2 & R3).
  rewrite Fc, Qg in R1. rewrite Qf, Qa, Qg in R2. rewrite Fc, Qg in R3.
  assert (Hmain :
    exists children,
      List.map Calculated (Children w') = List.map Calculated children
      /\ (if Qltb (rowSumWidth w1) inner then
            if (0 <? List.length (autoItems w1))%nat then
              mapM (fun child =>
                      if isZero (Width child)
                      then initWidgetsWidth l child (autoItemWidth w1 inner)
                      else Some child) (Children w)
            else Some (Children w)
          else
            mapM (fun child => initWidgetsWidth l child (equalItemWidth w1 inner))
                 (Children w)) = Some children).
  { destruct (Children w) as [|c cs] eqn:Ec; [contradiction|].
    rewrite Fd, Hdir in Hrun. change ("row" =? "row") with true in Hrun. cbv iota in Hrun.
    destruct (if Qltb (rowSumWidth w1) inner then _ else _) as [children|] eqn:Em;
      cbv iota in Hrun; [|discriminate Hrun].
    exists children. split; [|reflexivity].
    destruct (String.eqb _ "table").
    - apply adjustColumns_calc in Hrun. destruct Hrun as [_ H]. exact H.
    - inversion Hrun; subst. reflexivity. }
  destruct Hmain as (children & Hcalc & Hm).
  assert (Hlen : List.length (Children w') = List.length children).
  { apply (f_equal (@List.length _)) in Hcalc. rewrite !List.length_map in Hcalc. exact Hcalc. }
  assert (Hnth : forall i child', List.nth_error (Children w') i = Some child' ->
                 exists c, List.nth_error children i = Some c
                           /\ Calculated child' = Calculated c).
  { intros i child' Hn.
    apply (f_equal (fun xs => List.nth_error xs i)) in Hcalc.
    rewrite !List.nth_error_map, Hn in Hcalc.
    destruct (List.nth_error children i) as [c|]; cbn in Hcalc; [|discriminate Hcalc].
    exists c. split; [reflexivity|]. congruence. }
  split; [|split; [|split; [exact R1|split; [exact R2|split; [exact R3|]]]]].
  - rewrite Hlen. destruct (Qltb (rowSumWidth w1) inner).
    + destruct (0 <? List.length (autoItems w1))%nat.
      * apply mapM_nth in Hm. apply Hm.
      * inversion Hm; reflexivity.
    + apply mapM_nth in Hm. apply Hm.
  - intros i child child' Hc Hc'.
    destruct (Hnth i child' Hc') as (c & Hci & Hcc).
    unfold outerWidth. rewrite Hcc.
    destruct (Qltb (rowSumWidth w1) inner).
    + destruct (0 <? List.length (autoItems w1))%nat eqn:Ea.
      * apply mapM_nth in Hm. destruct Hm as [_ Hm].
        destruct (Hm i child Hc) as (y & Hy & Hf).
        rewrite Hci in Hy. inversion Hy; subst y.
        destruct (isZero (Width child)) eqn:Ez.
        -- apply initWidgetsWidth_calc in Hf. rewrite Hf.
           apply (ownWidth_auto child _ Ez).
        -- inversion Hf; reflexivity.
      * inversion Hm; subst children. rewrite Hc in Hci. inversion Hci; subst c.
        destruct (isZero (Width child)) eqn:Ez; [|reflexivity].
        exfalso. apply Nat.ltb_ge in Ea.
        assert (Hin : List.In child (autoItems w1)).
        { unfold autoItems. rewrite Fc. apply List.filter_In. split; [|exact Ez].
          eapply List.nth_error_In. exact Hc. }
        destruct (autoItems w1); [exact Hin|cbn in Ea; lia].
    + apply mapM_nth in Hm. destruct Hm as [_ Hm].
      destruct (Hm i child Hc) as (y & Hy & Hf).
      rewrite Hci in Hy. inversion Hy; subst y.
      apply initWidgetsWidth_calc in Hf. rewrite Hf.
      destruct (isZero (Width child)) eqn:Ez; cbn [orb].
      * apply (ownWidth_auto child _ Ez).
      * destruct (ownWidth_declared child (equalItemWidth w1 inner) Ez) as [D1 D2].
        fold (outerWidth child).
        destruct (Qgtb (outerWidth child) (equalItemWidth w1 inner)) eqn:Eg.
        -- apply D1. reflexivity.
        -- rewrite D2 by reflexivity. reflexivity.
  - vm_compute. reflexivity.
Qed.

Lemma row_width_distribution_witness :
  outerWidth (List.nth 1 (Children s3Output) emptyWidget)
  = autoItemWidth (ownWidth s3Input 595) (innerWidth (ownWidth s3Input 595))
  /\ (autoItemWidth (ownWidth s3Input 595) (innerWidth (ownWidth s3Input 595)) == 200)%Q
  /\ Calculated (List.nth 0 (Children s3Output) emptyWidget)
     = Calculated (List.nth 0 (Children s3Input) emptyWidget).
Proof.
  assert (Hne : Children s3Input <> []) by (vm_compute; discriminate).
  assert (Hd : Direction s3Input = "row") by (vm_compute; reflexivity).
  assert (Hr : initWidgetsWidth sampleLayouter s3Input 595 = Some s3Output)
    by (vm_compute; reflexivity).
  assert (Hlt : Qltb (rowSumWidth (ownWidth s3Input 595))
                     (innerWidth (ownWidth s3Input 595)) = true)
    by (vm_compute; reflexivity).
  pose proof (row_width_distribution sampleLayouter s3Input s3Output 595 Hd Hne Hr) as H.
  cbv zeta in H. destruct H as (_ & Hn & _).
  split; [|split].
  - assert (Hi : List.nth_error (Children s3Input) 1
                 = Some (List.nth 1 (Children s3Input) emptyWidget))
      by (vm_compute; reflexivity).
    assert (Ho : List.nth_error (Children s3Output) 1
                 = Some (List.nth 1 (Children s3Output) emptyWidget))
      by (vm_compute; reflexivity).
    assert (Hz : isZero (Width (List.nth 1 (Children s3Input) emptyWidget)) = true)
      by (vm_compute; reflexivity).
    pose proof (Hn 1%nat _ _ Hi Ho) as P. rewrite Hlt, Hz in P. exact P.
  - vm_compute. reflexivity.
  - assert (Hi : List.nth_error (Children s3Input) 0
                 = Some (List.nth 0 (Children s3Input) emptyWidget))
      by (vm_compute; reflexivity).
    assert (Ho : List.nth_error (Children s3Output) 0
                 = Some (List.nth 0 (Children s3Output) emptyWidget))
      by (vm_compute; reflexivity).
    assert (Hz : isZero (Width (List.nth 0 (Children s3Input) emptyWidget)) = false)
      by (vm_compute; reflexivity).
    pose proof (Hn 0%nat _ _ Hi Ho) as P. rewrite Hlt, Hz in P. exact P.
Defined.

(** C2 as stated fails twice.  An auto child with a long text (332.64 wide)
    beside a child of width 100 in a row of inner width 300: the declared
    widths sum to less than 300, yet both children are offered 150 and the
    auto child gets 150, not 200.  Two declared children of widths 100 and
    250: the sum exceeds 300, the share is 150, and the first child keeps
    its 100. *)
Lemma row_shares_differ :
  childWidths (initWidgetSize sampleLayouter
                 (rowDiv [widthDiv 100; textDiv longText]) 595) = [100; 150]
  /\ childWidths (initWidgetSize sampleLayouter
                    (rowDiv [widthDiv 100; widthDiv 250]) 595) = [100; 150].
Proof. split; vm_compute; reflexivity. Qed.

(** ** Box relations after the sizing pass *)

Local Open Scope Q_scope.

Lemma Widget_tree_ind (P : Widget -> Prop) :
  (forall w, List.Forall P (Children w) -> P w) -> forall w, P w.
Proof.
  intros step.
  fix IH 1. intros w. apply step.
  destruct w as [? ? ? ? ? ? ? ? ? ? ? ? ? ? ? children ? ? ? ? ? ? ? ? ? ? ? ? ? ? ? ? ? ? ? ? ?].
  cbn [Pdf.Children].
  induction children as [|c cs IHcs]; constructor; [apply IH|exact IHcs].
Qed.

Lemma ForallTree_eq (P : Widget -> Prop) (w : Widget) :
  ForallTree P w <-> P w /\ List.Forall (ForallTree P) (Children w).
Proof.
  destruct w as [? ? ? ? ? ? ? ? ? ? ? ? ? ? ? children ? ? ? ? ? ? ? ? ? ? ? ? ? ? ? ? ? ? ? ? ?].
  cbn [ForallTree Pdf.Children].
  assert (H : forall cs,
             (fix all (cs : list Widget) : Prop :=
                match cs with
                | [] => True
                | c :: rest => ForallTree P c /\ all rest
                end) cs <-> List.Forall (ForallTree P) cs).
  { induction cs as [|c cs IH]; split; intros H.
    - constructor.
    - exact I.
    - destruct H as [H1 H2]. constructor; [exact H1|apply IH, H2].
    - inversion H; subst. split; [assumption|apply IH; assumption]. }
  rewrite H. reflexivity.
Qed.

Lemma ForallTree_root (P : Widget -> Prop) (w : Widget) : ForallTree P w -> P w.
Proof. intros H; apply ForallTree_eq in H; apply H. Qed.

Lemma ForallTree_impl (P Q : Widget -> Prop) :
  (forall w, P w -> Q w) -> forall w, ForallTree P w -> ForallTree Q w.
Proof.
  intros HPQ. induction w as [w IH] using Widget_tree_ind. intros H.
  apply ForallTree_eq in H. destruct H as [H1 H2]. apply ForallTree_eq.
  split; [apply HPQ, H1|].
  rewrite List.Forall_forall in *. intros c Hc. apply IH; [exact Hc|apply H2, Hc].
Qed.

(** *** The six conversions establish the relations of their axis *)












(** *** Heights: the height pass visits every widget *)





(** *** Widths: what the passes after the width pass leave alone *)



















(** *** Widths: the passes that write them *)



























Local Open Scope string_scope.
